(** * H2OModelBuilder: a shallow embedding of h2o-py/h2o/model/h2o_model_builder.py

    The builder is a Python 2 object that shapes a parameter dictionary,
    talks to a remote H2O server and dispatches on the category of the model
    the server built.  The embedding keeps

    - Python values as an inductive type [pyval] with Python's truth value,
    - the builder's attributes and its private fields as a record [state],
    - dictionaries as [gmap string pyval], held in a store of objects so that
      two references to one dictionary see each other's updates,
    - exceptions and the calls sent to the server in a small state-and-error
      monad [M]; the server's answers are an oracle [Server]. *)

From Stdlib Require Import ZArith String Ascii.
From stdpp Require Import gmap strings list fin_maps.

Local Open Scope string_scope.
Local Open Scope Z_scope.

(** ** Python values *)

(** A Python float: a finite binary fraction [m * 2^e], an infinity or NaN. *)
Inductive pyfloat :=
  | FFinite (m e : Z)
  | FInf (negative : bool)
  | FNaN.

(** [math.isinf] *)
Definition isinf (f : pyfloat) : bool :=
  match f with FInf _ => true | _ => false end.

(** An H2OFrame as this file sees it: its vecs, each a column name with the
    key of its storage, and the number of rows. *)
Record H2OFrame := mkFrame {
  fr_vecs : list (string * string);
  fr_rows : Z
}.

(** [dataset.names()] *)
Definition names (fr : H2OFrame) : list string := (fr_vecs fr).*1.

#[local] Set Warnings "-register-all".

(** The values the builder handles.  [VInt] is Python 2's [int] (a [long] is
    not modelled); [VObj] is any other object, known only by identity. *)
Inductive pyval :=
  | VNone
  | VBool (b : bool)
  | VInt (n : Z)
  | VFloat (f : pyfloat)
  | VStr (s : string)
  | VList (l : list pyval)
  | VFrame (fr : H2OFrame)
  | VObj (id : nat).

(** [sys.maxint] of a 64-bit CPython 2. *)
Definition sys_maxint : Z := 2 ^ 63 - 1.

(** [v is None] *)
Definition is_None (v : pyval) : bool :=
  match v with VNone => true | _ => false end.

(** [isinstance(v, int)]: a bool is an int. *)
Definition isinstance_int (v : pyval) : bool :=
  match v with VInt _ | VBool _ => true | _ => false end.

Definition isinstance_H2OFrame (v : pyval) : bool :=
  match v with VFrame _ => true | _ => false end.

Definition str_nonempty (s : string) : bool :=
  match s with EmptyString => false | String _ _ => true end.

(** Python's truth value: [None], [False], zero, and empty strings, lists and
    frames are false (an H2OFrame's [len] is its number of vecs; the class is
    outside this file). *)
Definition truthy (v : pyval) : bool :=
  match v with
  | VNone => false
  | VBool b => b
  | VInt n => negb (Z.eqb n 0)
  | VFloat (FFinite m _) => negb (Z.eqb m 0)
  | VFloat _ => true
  | VStr s => str_nonempty s
  | VList l => match l with [] => false | _ => true end
  | VFrame fr => match fr_vecs fr with [] => false | _ => true end
  | VObj _ => true
  end.

(** A dictionary with string keys. *)
Abbreviation pydict := (gmap string pyval).

(** [dict(pairs)] and a dict comprehension: a later pair overrides an earlier
    one with the same key. *)
Definition dict_of_pairs (l : list (string * pyval)) : pydict :=
  foldl (fun d kv => <[kv.1 := kv.2]> d) ∅ l.

(** [d.keys()] *)
Definition keys (d : pydict) : list string := (map_to_list d).*1.

(** ** Exceptions, server calls and the builder's state *)

Inductive value_error :=
  | NoModelAvailable          (* "No model available. Did you call fit()?" *)
  | MustSpecifyTestData       (* "Must specify test data" *)
  | MissingFeatures           (* "No fit can be made, missing feature variables." *)
  | TrainingNotAFrame         (* "`training_frame` must be a H2OFrame. Got: ..." *)
  | ColumnsAbsent             (* "... must be column(s) in ..." *)
  | ValidationNotAFrame (passed_to_fit : bool)
                              (* "Validation passed to fit|model builder must be ..." *)
  | BadFormatString.          (* raised by str.format on a single brace *)

Inductive exn :=
  | ValueError (why : value_error)
  | H2OMissingFrameError
  | H2OUnknownModelError (model_type : string)
  | KeyError (key : string)
  | TypeError
  | IndexError
  | AttributeError
  | ServerError               (* whatever a failed call to the server raises *)
  | NotModelled.              (* the outcome lies outside this model *)

Inductive result (A : Type) :=
  | Ok (a : A)
  | Raise (e : exn).
Arguments Ok {A} a.
Arguments Raise {A} e.

(** A call sent to the server. *)
Inductive event :=
  | EvSendFrame (fr : H2OFrame)            (* H2OFrame.send_frame *)
  | EvGet (url : string)                   (* H2OConnection.get_json *)
  | EvPost (url : string) (body : pydict)  (* H2OConnection.post_json *)
  | EvFrame (key : string)                 (* h2o.frame *)
  | EvRemove (key : pyval).                (* h2o.remove *)

(** The four result wrappers. *)
Inductive wrapper :=
  | H2OBinomialModel
  | H2OMultinomialModel
  | H2OClusteringModel
  | H2ORegressionModel.

(** [models[0]] of a [Models/<key>] answer: [output.model_category] and the
    rest of [output], which the builder hands on unread. *)
Record model_json := mkModelJson {
  mj_model_category : string;
  mj_output : nat
}.

(** [frames[0]] of a frame lookup. *)
Record frame_meta := mkFrameMeta {
  fm_veckeys : list string;
  fm_rows : Z;
  fm_labels : list string
}.

(** A fitted model: the wrapper built, from which output and for which
    algorithm, and the key stamped on it. *)
Record fitted := mkFitted {
  fit_wrapper : wrapper;
  fit_output : nat;
  fit_algo : string;
  fit_key : option string
}.

(** The server, as an oracle: each answer may depend on the calls made so
    far; [None] is a call that raises. *)
Record Server := mkServer {
  srv_send_frame : list event -> H2OFrame -> option string;
  srv_builder_parameters : list event -> string -> option (list (string * pyval));
  srv_build : list event -> string -> pydict -> option string;
  srv_model : list event -> string -> option model_json;
  srv_predict : list event -> string -> option string;
  srv_frame : list event -> string -> option frame_meta;
  srv_remove : list event -> pyval -> option unit
}.

(** An attribute of the builder as [dir] and [getattr] see it. *)
Inductive attr :=
  | Method
  | Data (v : pyval).

(** The builder, the store of dictionaries it can reach and the calls made so
    far.  [_parameters] is [None] or a reference into the store. *)
Record state := mkState {
  attrs : gmap string attr;
  _algo : string;
  _parameters : option nat;
  _model_type : string;
  _fitted_model : option fitted;
  _model_key : option string;
  heap : list pydict;
  trace : list event
}.

Definition M (A : Type) : Type := state -> result A * state.

Definition ret {A} (a : A) : M A := fun s => (Ok a, s).
Definition raise {A} (e : exn) : M A := fun s => (Raise e, s).
Definition bind {A B} (m : M A) (f : A -> M B) : M B :=
  fun s => match m s with
           | (Ok a, s') => f a s'
           | (Raise e, s') => (Raise e, s')
           end.
Definition get : M state := fun s => (Ok s, s).
Definition put (s : state) : M unit := fun _ => (Ok tt, s).

(** Sequencing, for [M] and for [result] alike: [let* x := m in k] runs [m]
    first and binds its value. *)
Class Bind (T : Type -> Type) := bind_of : forall {A B}, T A -> (A -> T B) -> T B.
#[global] Instance M_bind : Bind M := @bind.

Declare Scope py_scope.
Delimit Scope py_scope with py.
Notation "'let*' x := m 'in' k" := (bind_of m (fun x => k))
  (at level 10, x name, m at level 100, k at level 200) : py_scope.
Notation "'let*' ' p := m 'in' k" := (bind_of m (fun x => match x with p => k end))
  (at level 10, p pattern, m at level 100, k at level 200) : py_scope.
Notation "m ;; k" := (bind_of m (fun _ => k))
  (at level 100, k at level 200, right associativity) : py_scope.
Local Open Scope py_scope.

Definition when (b : bool) (m : M unit) : M unit := if b then m else ret tt.

(** Field updates. *)
Definition set_parameters (r : option nat) (s : state) : state :=
  mkState (attrs s) (_algo s) r (_model_type s) (_fitted_model s)
          (_model_key s) (heap s) (trace s).
Definition set_model_type (t : string) (s : state) : state :=
  mkState (attrs s) (_algo s) (_parameters s) t (_fitted_model s)
          (_model_key s) (heap s) (trace s).
Definition set_fitted_model (f : option fitted) (s : state) : state :=
  mkState (attrs s) (_algo s) (_parameters s) (_model_type s) f
          (_model_key s) (heap s) (trace s).
Definition set_model_key (k : option string) (s : state) : state :=
  mkState (attrs s) (_algo s) (_parameters s) (_model_type s)
          (_fitted_model s) k (heap s) (trace s).
Definition set_heap (h : list pydict) (s : state) : state :=
  mkState (attrs s) (_algo s) (_parameters s) (_model_type s)
          (_fitted_model s) (_model_key s) h (trace s).
Definition set_trace (t : list event) (s : state) : state :=
  mkState (attrs s) (_algo s) (_parameters s) (_model_type s)
          (_fitted_model s) (_model_key s) (heap s) t.

Definition modify (f : state -> state) : M unit := fun s => (Ok tt, f s).

(** [H2OModelBuilder.__init__]: [parameters] is [None] or a dictionary the
    caller holds; [others] are the attributes a subclass has set. *)
Definition __init__ (others : gmap string attr) (parameters : option nat)
    (algo : string) (training_frame : pyval) (h : list pydict) : state :=
  mkState (<["training_frame" := Data training_frame]> others) algo parameters
          "H2O{}Model" None None h [].

(** ** The parameter dictionary, through its reference *)

(** The dictionary [self._parameters] refers to; subscripting [None] is a
    TypeError. *)
Definition the_parameters : M (nat * pydict) :=
  let* s := get in
  match _parameters s with
  | None => raise TypeError
  | Some r => match heap s !! r with
              | Some d => ret (r, d)
              | None => raise TypeError
              end
  end.

(** [self._parameters[k]] *)
Definition params_getitem (k : string) : M pyval :=
  let* '(_, d) := the_parameters in
  match d !! k with
  | Some v => ret v
  | None => raise (KeyError k)
  end.

(** [self._parameters[k] = v]: an update in place. *)
Definition params_setitem (k : string) (v : pyval) : M unit :=
  let* '(r, d) := the_parameters in
  modify (fun s => set_heap (<[r := <[k := v]> d]> (heap s)) s).

(** [k in self._parameters] *)
Definition params_contains (k : string) : M bool :=
  let* '(_, d) := the_parameters in
  ret (bool_decide (is_Some (d !! k))).

(** ** [_update] *)

Definition startswith_underscore (n : string) : bool :=
  match n with
  | String c _ => bool_decide (c = "_"%char)
  | EmptyString => false
  end.

Definition callable (a : attr) : bool :=
  match a with Method => true | Data _ => false end.

(** [dir(o)] *)
Definition dir (o : gmap string attr) : list string := (map_to_list o).*1.

Definition is_public_data (o : gmap string attr) (n : string) : bool :=
  match o !! n with
  | Some a => negb (callable a) && negb (startswith_underscore n)
  | None => false
  end.

(** [[n for n in dir(o) if not callable(getattr(o, n)) and not n.startswith("_")]] *)
Definition public_data_names (o : gmap string attr) : list string :=
  filter (fun n => is_public_data o n) (dir o).

(** [[getattr(o, i) for i in a]] zipped with [a] *)
Definition getattr_pairs (o : gmap string attr) (a : list string)
    : list (string * pyval) :=
  omap (fun n => match o !! n with
                 | Some (Data v) => Some (n, v)
                 | _ => None
                 end) a.

(** One turn of the loop over the keys of [self._parameters]. *)
Definition replace_inf (d : pydict) (key : string) : pydict :=
  match d !! key with
  | Some (VFloat f) => if isinf f then <[key := VInt sys_maxint]> d else d
  | _ => d
  end.

(** [_update]: a new dictionary of the public data attributes becomes
    [self._parameters]; infinite floats in it are replaced in place; the
    reference to that same dictionary is returned. *)
Definition _update : M (option nat) :=
  let* s := get in
  let o := attrs s in
  let a := public_data_names o in
  let d := dict_of_pairs (getattr_pairs o a) in
  let r := length (heap s) in
  put (set_parameters (Some r) (set_heap (heap s ++ [d]) s));;
  let* '(r, d) := the_parameters in
  modify (fun s => set_heap (<[r := foldl replace_inf d (keys d)]> (heap s)) s);;
  let* s := get in
  ret (_parameters s).

(** ** Subscripts, membership and [str.format] *)

#[global] Instance result_bind : Bind result :=
  fun A B r f => match r with Ok a => f a | Raise e => Raise e end.
#[global] Instance result_fmap : FMap result :=
  fun A B f r => match r with Ok a => Ok (f a) | Raise e => Raise e end.

(** [[f(i) for i in l]], stopping at the first element that raises. *)
Fixpoint map_result {A B} (f : A -> result B) (l : list A) : result (list B) :=
  match l with
  | [] => Ok []
  | a :: l' =>
      let* b := f a in
      let* bs := map_result f l' in
      Ok (b :: bs)
  end.

(** A pure computation that may raise, run inside [M]. *)
Definition lift {A} (r : result A) : M A :=
  match r with Ok a => ret a | Raise e => raise e end.

(** [l[i]] on a Python list: a negative index counts from the end. *)
Definition list_getitem {A} (l : list A) (i : Z) : result A :=
  let n := Z.of_nat (length l) in
  let j := if i <? 0 then i + n else i in
  if (0 <=? j) && (j <? n)
  then match l !! Z.to_nat j with Some a => Ok a | None => Raise IndexError end
  else Raise IndexError.

(** [l[v]]: only an int (or a bool, which is one) is a list index. *)
Definition list_subscript {A} (l : list A) (v : pyval) : result A :=
  match v with
  | VInt i => list_getitem l i
  | VBool b => list_getitem l (if b then 1 else 0)
  | _ => Raise TypeError
  end.

(** [x[0]] for the values [x] can be; the first vec of a frame is an object
    of its own. *)
Definition getitem0 (x : pyval) : result pyval :=
  match x with
  | VList (e :: _) => Ok e
  | VStr (String c _) => Ok (VStr (String c EmptyString))
  | VFrame fr => match fr_vecs fr with _ :: _ => Ok (VObj 0) | [] => Raise IndexError end
  | VList [] | VStr EmptyString => Raise IndexError
  | _ => Raise TypeError
  end.

(** [i == v] for a string [i]. *)
Definition py_eq_str (i : string) (v : pyval) : bool :=
  match v with VStr s => String.eqb i s | _ => false end.

Definition is_substring (i s : string) : bool :=
  match String.index 0 i s with Some _ => true | None => false end.

(** [i in x] for a string [i]: membership in a list, substring of a string. *)
Definition py_in (i : string) (x : pyval) : result bool :=
  match x with
  | VList l => Ok (existsb (py_eq_str i) l)
  | VStr s => Ok (is_substring i s)
  | _ => Raise TypeError
  end.

(** [template.format(arg)] with one positional string argument, for
    templates whose replacement fields are all the empty field: [{}] takes
    the next argument, a doubled brace is a brace, a single one a
    ValueError.  A field with a name, conversion or format specification is
    outside this model: [Unmodelled]. *)
Inductive format_result :=
  | Formatted (s : string)
  | FormatRaises (e : exn)
  | Unmodelled.

Definition format_cons (c : ascii) (r : format_result) : format_result :=
  match r with Formatted s => Formatted (String c s) | _ => r end.

Definition format_app (a : string) (r : format_result) : format_result :=
  match r with Formatted s => Formatted (a +:+ s) | _ => r end.

Fixpoint format_from (used : bool) (arg template : string) : format_result :=
  match template with
  | EmptyString => Formatted EmptyString
  | String c t1 =>
      if Ascii.eqb c "{" then
        match t1 with
        | EmptyString => FormatRaises (ValueError BadFormatString)
        | String c2 t2 =>
            if Ascii.eqb c2 "{" then format_cons "{" (format_from used arg t2)
            else if Ascii.eqb c2 "}" then
              if used then FormatRaises IndexError
              else format_app arg (format_from true arg t2)
            else Unmodelled
        end
      else if Ascii.eqb c "}" then
        match t1 with
        | String c2 t2 =>
            if Ascii.eqb c2 "}" then format_cons "}" (format_from used arg t2)
            else FormatRaises (ValueError BadFormatString)
        | EmptyString => FormatRaises (ValueError BadFormatString)
        end
      else format_cons c (format_from used arg t1)
  end.

Definition format (template arg : string) : format_result :=
  format_from false arg template.

(** ** Collaborators outside this file *)

(** Modelled from the spec: the category constant [BINOMIAL] of [ModelBase],
    which is not among the sources.  The template ["H2O{}Model"] and its
    comment ("e.g. Binomial") give its shape; the spec names the four kinds
    binomial, multinomial, clustering and regression. *)
Definition BINOMIAL : string := "H2OBinomialModel".

(** Modelled from the spec: [ModelBase.MULTINOMIAL], as [BINOMIAL]. *)
Definition MULTINOMIAL : string := "H2OMultinomialModel".

(** Modelled from the spec: [ModelBase.CLUSTERING], as [BINOMIAL]. *)
Definition CLUSTERING : string := "H2OClusteringModel".

(** Modelled from the spec: [ModelBase.REGRESSION], as [BINOMIAL]. *)
Definition REGRESSION : string := "H2ORegressionModel".

(** Modelled from the spec: the vec [H2OFrame.__getitem__] finds for one
    name or position; the class is not among the sources. *)
Definition select_vec (fr : H2OFrame) (e : pyval) : option (string * string) :=
  match e with
  | VStr n => list_find (fun v => v.1 = n) (fr_vecs fr) ≫= fun iv => Some iv.2
  | VInt _ | VBool _ =>
      match list_subscript (fr_vecs fr) e with Ok v => Some v | Raise _ => None end
  | _ => None
  end.

(** Modelled from the spec: [H2OFrame.__getitem__], which is not among the
    sources.  "fail ... if any requested feature column is not actually
    present in the dataset": the columns asked for, by name or by position,
    as a frame, or an argument error. *)
Definition frame_getitem (fr : H2OFrame) (x : pyval) : result pyval :=
  match x with
  | VList l =>
      match mapM (select_vec fr) l with
      | Some vs => Ok (VFrame (mkFrame vs (fr_rows fr)))
      | None => Raise (ValueError ColumnsAbsent)
      end
  | VStr _ | VInt _ | VBool _ =>
      match select_vec fr x with
      | Some v => Ok (VFrame (mkFrame [v] (fr_rows fr)))
      | None => Raise (ValueError ColumnsAbsent)
      end
  | _ => Raise TypeError
  end.

(** ** The builder's methods *)

Section Builder.

(** The server the builder talks to, and the two methods of the result
    wrappers that the builder hands calls on to. *)
Context (srv : Server).
Context (wrapper_model_performance : fitted -> pyval -> M pyval).
Context (wrapper_summary : fitted -> M unit).

(** A call to the server: it is recorded, then answered or it raises. *)
Definition call {A} (ev : event) (answer : list event -> option A) : M A :=
  let* s := get in
  put (set_trace (trace s ++ [ev]) s);;
  match answer (trace s) with
  | Some a => ret a
  | None => raise ServerError
  end.

(** [H2OFrame.send_frame(fr)] *)
Definition send_frame (fr : H2OFrame) : M string :=
  call (EvSendFrame fr) (fun t => srv_send_frame srv t fr).

(** [h2o.remove(key)] *)
Definition h2o_remove (key : pyval) : M unit :=
  call (EvRemove key) (fun t => srv_remove srv t key).

Definition _set_and_check_x_y (x y : pyval) : M (pyval * pyval) :=
  if negb (truthy x) || negb (truthy y) then
    let* stored_x := params_getitem "x" in
    if negb (truthy stored_x) then raise (ValueError MissingFeatures)
    else
      when (truthy x) (params_setitem "x" x);;
      when (truthy y) (params_setitem "y" y);;
      let* ret_x := params_getitem "x" in
      let* has_y := params_contains "y" in
      let* ret_y := (if has_y then params_getitem "y" else ret VNone) in
      ret (ret_x, ret_y)
  else ret (x, y).

(** [self.training_frame] *)
Definition get_training_frame : M pyval :=
  let* s := get in
  match attrs s !! "training_frame" with
  | Some (Data v) => ret v
  | Some Method => ret (VObj 0)
  | None => raise AttributeError
  end.

Definition _check_training_frame (x : pyval) : M H2OFrame :=
  let* tf := get_training_frame in
  if negb (truthy tf) then raise H2OMissingFrameError
  else
    match tf with
    | VFrame dataset =>
        let* selected := lift (frame_getitem dataset x) in
        if negb (truthy selected)
        then (* x + " must be column(s) in " + str(dataset) *)
          match x with
          | VStr _ => raise (ValueError ColumnsAbsent)
          | _ => raise TypeError
          end
        else ret dataset
    | _ => raise (ValueError TrainingNotAFrame)
    end.

Definition _indexed_columns_to_named_columns (x y : pyval) (dataset : H2OFrame)
    : result (pyval * pyval) :=
  let* x0 := getitem0 x in
  let* x := (if isinstance_int x0
             then match x with
                  | VList l => VList <$> map_result (fun i => VStr <$> list_subscript (names dataset) i) l
                  | _ => Raise TypeError
                  end
             else Ok x) in
  let* y := (if truthy y
             then if isinstance_int y
                  then VStr <$> list_subscript (names dataset) y
                  else Ok y
             else Ok y) in
  Ok (x, y).

(** [[i for i in dataset.names() if i not in x and i != y]] *)
Fixpoint ignored_columns (cols : list string) (x y : pyval) : result (list string) :=
  match cols with
  | [] => Ok []
  | i :: cols' =>
      let* inx := py_in i x in
      let* rest := ignored_columns cols' x y in
      Ok (if negb inx && negb (py_eq_str i y) then i :: rest else rest)
  end.

Definition _set_ignored_columns (x y : pyval) (dataset : H2OFrame) : M unit :=
  let* ign := lift (ignored_columns (names dataset) x y) in
  params_setitem "ignored_columns" (VList (VStr <$> ign)).

Definition _set_response_column (y : pyval) : M unit :=
  params_setitem "response_column" y.

Definition _set_training_frame (dataset : H2OFrame) : M unit :=
  let* dataset_key := send_frame dataset in
  params_setitem "training_frame" (VStr dataset_key).

Definition _set_validation_frame (validation_frame : pyval) : M unit :=
  let* given := (if truthy validation_frame then ret true
                 else params_contains "validation_frame") in
  if given then
    let* nothing := (if truthy validation_frame then ret false
                     else let* v := params_getitem "validation_frame" in
                          ret (negb (truthy v))) in
    if nothing then ret tt
    else
      when (truthy validation_frame)
           (params_setitem "validation_frame" validation_frame);;
      let validation_passed_to_fit := truthy validation_frame in
      let* validation_frame := params_getitem "validation_frame" in
      match validation_frame with
      | VFrame fr =>
          let* validation_key := send_frame fr in
          params_setitem "validation_frame" (VStr validation_key)
      | _ => raise (ValueError (ValidationNotAFrame validation_passed_to_fit))
      end
  else ret tt.

(** [model_params_default[k] = self._parameters[k]] *)
Definition fill (user : pydict) (model_params_default : pydict) (k : string) : pydict :=
  match user !! k with
  | Some v => <[k := v]> model_params_default
  | None => model_params_default
  end.

(** [d[k] is None] *)
Definition value_is_None (d : pydict) (k : string) : bool :=
  match d !! k with Some v => is_None v | None => false end.

(** The folding itself, from the server's list of [{name, default_value}]
    and the builder's dictionary. *)
Definition fold_params (model_params_raw : list (string * pyval)) (user : pydict)
    : pydict :=
  let model_params_default := dict_of_pairs model_params_raw in
  let params_to_fill :=
    filter (fun k => is_Some (model_params_default !! k)) (keys user) in
  let model_params_default := foldl (fill user) model_params_default params_to_fill in
  let keys_to_pop :=
    filter (fun k => value_is_None model_params_default k)
           (keys model_params_default) in
  foldl (fun d k => delete k d) model_params_default keys_to_pop.

Definition _fold_default_params_with_user_params : M pydict :=
  let* s := get in
  let url_suffix := "ModelBuilders/" +:+ _algo s in
  let* model_params_raw :=
    call (EvGet url_suffix) (fun t => srv_builder_parameters srv t (_algo s)) in
  let* '(_, user) := the_parameters in
  ret (fold_params model_params_raw user).

(** The wrapper whose constant equals the model type, if any. *)
Definition wrapper_of (model_type : string) : option wrapper :=
  if String.eqb model_type BINOMIAL then Some H2OBinomialModel
  else if String.eqb model_type MULTINOMIAL then Some H2OMultinomialModel
  else if String.eqb model_type CLUSTERING then Some H2OClusteringModel
  else if String.eqb model_type REGRESSION then Some H2ORegressionModel
  else None.

Definition _set_fitted_model_and_model_type (destination_key : string) : M unit :=
  modify (set_model_key (Some destination_key));;
  let url_suffix := "Models/" +:+ destination_key in
  let* model := call (EvGet url_suffix) (fun t => srv_model srv t destination_key) in
  let* s := get in
  let* model_type :=
    match format (_model_type s) (mj_model_category model) with
    | Formatted t => ret t
    | FormatRaises e => raise e
    | Unmodelled => raise NotModelled
    end in
  modify (set_model_type model_type);;
  let* s := get in
  match wrapper_of (_model_type s) with
  | Some w =>
      modify (set_fitted_model (Some (mkFitted w (mj_output model) (_algo s) None)));;
      (* self._fitted_model._key = destination_key *)
      modify (fun s => set_fitted_model
                (Some (mkFitted w (mj_output model) (_algo s) (Some destination_key))) s)
  | None => raise (H2OUnknownModelError (_model_type s))
  end.

Definition fit (x y validation_frame : pyval) : M unit :=
  let* saved_parameters := _update in
  let* '(x, y) := _set_and_check_x_y x y in
  let* dataset := _check_training_frame x in
  let* '(x, y) := lift (_indexed_columns_to_named_columns x y dataset) in
  _set_ignored_columns x y dataset;;
  when (truthy y) (_set_response_column y);;
  _set_training_frame dataset;;
  _set_validation_frame validation_frame;;
  let* model_params := _fold_default_params_with_user_params in
  let* s := get in
  let url_suffix := "ModelBuilders/" +:+ _algo s in
  let* destination_key :=
    call (EvPost url_suffix model_params)
         (fun t => srv_build srv t (_algo s) model_params) in
  _set_fitted_model_and_model_type destination_key;;
  let* training_key := params_getitem "training_frame" in
  h2o_remove training_key;;
  let* has_validation := params_contains "validation_frame" in
  (if has_validation
   then let* validation_key := params_getitem "validation_frame" in
        when (negb (is_None validation_key)) (h2o_remove validation_key)
   else ret tt);;
  modify (set_parameters saved_parameters).

Definition model_performance (test_data : pyval) : M pyval :=
  let* s := get in
  match _fitted_model s with
  | None => raise (ValueError NoModelAvailable)
  | Some m => wrapper_model_performance m test_data
  end.

(** [H2OFrame.send_frame] reads the vecs of its argument; on anything but a
    frame that is an AttributeError. *)
Definition predict (test_data : pyval) : M H2OFrame :=
  if negb (truthy test_data) then raise (ValueError MustSpecifyTestData)
  else
    let* test_data_key :=
      match test_data with
      | VFrame fr => send_frame fr
      | _ => raise AttributeError
      end in
    let* s := get in
    let* model_key :=
      match _model_key s with Some k => ret k | None => raise TypeError end in
    let url_suffix :=
      "Predictions/models/" +:+ model_key +:+ "/frames/" +:+ test_data_key in
    let* prediction_frame_key :=
      call (EvPost url_suffix ∅) (fun t => srv_predict srv t url_suffix) in
    let* pred_frame_meta :=
      call (EvFrame prediction_frame_key)
           (fun t => srv_frame srv t prediction_frame_key) in
    let veckeys := fm_veckeys pred_frame_meta in
    let rows := fm_rows pred_frame_meta in
    let cols := fm_labels pred_frame_meta in
    let vecs := zip cols veckeys in
    let* key := params_getitem "training_frame" in
    h2o_remove key;;
    ret (mkFrame vecs rows).

(** [self._fitted_model.summary()]: on [None] an AttributeError. *)
Definition summary : M unit :=
  let* s := get in
  match _fitted_model s with
  | None => raise AttributeError
  | Some m => wrapper_summary m
  end.

End Builder.

Local Open Scope list_scope.

(** ** What the methods are specified to do *)

(** What [_update] stores for an attribute value. *)
Definition stored_value (v : pyval) : pyval :=
  match v with
  | VFloat f => if isinf f then VInt sys_maxint else v
  | _ => v
  end.

(** What [_update] collects under a name: the public data attributes. *)
Definition collected (o : gmap string attr) (key : string) : option pyval :=
  match o !! key with
  | Some (Data v) => if startswith_underscore key then None else Some v
  | _ => None
  end.

(** The request body as the specification words it: the server's defaults,
    overlaid with the user's value for every key the user set that the
    server also recognises, without the keys whose value is null. *)
Definition recognised (defaults user : pydict) : pydict :=
  filter (fun kv => is_Some (defaults !! kv.1)) user.

Definition folded_body (defaults user : pydict) : pydict :=
  filter (fun kv => negb (is_None kv.2)) (recognised defaults user ∪ defaults).

(** The wrapper the specification assigns to a category string. *)
Definition category_wrapper (category : string) : option wrapper :=
  if String.eqb category "Binomial" then Some H2OBinomialModel
  else if String.eqb category "Multinomial" then Some H2OMultinomialModel
  else if String.eqb category "Clustering" then Some H2OClusteringModel
  else if String.eqb category "Regression" then Some H2ORegressionModel
  else None.

(** [self._parameters] refers to the dictionary [d], stored at [r]. *)
Definition params_at (s : state) (r : nat) (d : pydict) : Prop :=
  _parameters s = Some r /\ heap s !! r = Some d.

(** What a step leaves behind: the builder still refers to the dictionary at
    [r], now [d']; its attributes and algorithm are as before; the calls
    [evs] were made. *)
Definition post (s s' : state) (r : nat) (d' : pydict) (evs : list event) : Prop :=
  params_at s' r d' /\ attrs s' = attrs s /\ _algo s' = _algo s /\
  trace s' = trace s ++ evs.

(** The validation frame a call of [fit] works with: the one passed to
    [fit] or else the one set on the builder, if it is not empty. *)
Definition validation_for_call (s : state) (validation_frame : pyval) : option pyval :=
  if truthy validation_frame then Some validation_frame
  else match collected (attrs s) "validation_frame" with
       | Some v => if truthy v then Some v else None
       | None => None
       end.

(** The validation frame [_set_validation_frame] works with, read off the
    dictionary. *)
Definition validation_choice (d : pydict) (validation_frame : pyval) : option pyval :=
  if truthy validation_frame then Some validation_frame
  else match d !! "validation_frame" with
       | Some v => if truthy v then Some v else None
       | None => None
       end.

(** ** A small server and a builder to run the methods on *)

Definition count_sent (t : list event) : nat :=
  length (List.filter (fun e => match e with EvSendFrame _ => true | _ => false end) t).

Definition count_posted (t : list event) : nat :=
  length (List.filter (fun e => match e with EvPost _ _ => true | _ => false end) t).

(** Each frame sent gets a key of its own; the first model built is
    binomial, the later ones are regressions. *)
Definition example_server : Server :=
  mkServer
    (fun t _ => Some (match count_sent t with
                      | 0%nat => "tmp_0" | 1%nat => "tmp_1" | 2%nat => "tmp_2"
                      | _ => "tmp_n"
                      end))
    (fun _ _ => Some [("training_frame", VNone); ("validation_frame", VNone);
                      ("response_column", VNone); ("ignored_columns", VNone);
                      ("ntrees", VInt 50); ("max_depth", VInt 5); ("seed", VNone)])
    (fun t _ _ => Some (match count_posted t with
                        | 0%nat => "model_0"
                        | _ => "model_1"
                        end))
    (fun _ key => Some (mkModelJson (if String.eqb key "model_0"
                                     then "Binomial" else "Regression") 7))
    (fun _ _ => Some "pred_0")
    (fun _ _ => Some (mkFrameMeta ["vk_p"] 10 ["predict"]))
    (fun _ _ => Some tt).

Definition example_frame : H2OFrame :=
  mkFrame [("a", "vk_a"); ("b", "vk_b"); ("c", "vk_c"); ("d", "vk_d")] 10.

Definition example_validation : H2OFrame :=
  mkFrame [("a", "wk_a"); ("b", "wk_b"); ("c", "wk_c"); ("d", "wk_d")] 4.

(** A builder as a subclass sets it up: no features or target stored, two
    tuning parameters, one of them infinite. *)
Definition example_attrs : gmap string attr :=
  <["x" := Data VNone]> (<["y" := Data VNone]>
  (<["ntrees" := Data (VInt 20)]> (<["max_depth" := Data (VFloat (FInf false))]>
  (<["_secret" := Data (VInt 1)]> (<["fit" := Method]> ∅))))).

Definition example_builder : state :=
  __init__ example_attrs None "gbm" (VFrame example_frame) [].

(** The builder after [fit(x=[0, 2], y="d")]. *)
Definition example_fitted : state :=
  (fit example_server (VList [VInt 0; VInt 2]) (VStr "d") VNone example_builder).2.

(** The builder after [fit(x=[0, 2], y="d", validation_frame=...)]. *)
Definition example_validated : state :=
  (fit example_server (VList [VInt 0; VInt 2]) (VStr "d")
       (VFrame example_validation) example_builder).2.

(** The state [predict] leaves when called on the fitted builder. *)
Definition example_predicted : state :=
  (predict example_server (VFrame example_validation) example_fitted).2.

(** Result wrappers whose methods do nothing. *)
Definition example_model_performance (m : fitted) (test_data : pyval) : M pyval :=
  ret VNone.
Definition example_summary (m : fitted) : M unit := ret tt.

(** ** What a method may touch *)

Definition is_remove (e : event) : bool :=
  match e with EvRemove _ => true | _ => false end.

Definition any_event (e : event) : bool := true.

Definition no_remove (e : event) : bool := negb (is_remove e).

(** From [s] to [s'] the builder's attributes, algorithm and reference to its
    dictionary are kept, no dictionary is created, no dictionary but the
    builder's is updated, and the calls made are added to the trace; each of
    them is one that [allow] accepts. *)
Definition frame (allow : event -> bool) (s s' : state) : Prop :=
  attrs s' = attrs s /\ _algo s' = _algo s /\ _parameters s' = _parameters s /\
  length (heap s') = length (heap s) /\
  (forall r, _parameters s <> Some r -> heap s' !! r = heap s !! r) /\
  exists evs, trace s' = trace s ++ evs /\ forallb allow evs = true.

(** [m] keeps the frame whenever it runs on a builder whose dictionary is
    [p], whether it returns or raises. *)
Definition keeps (allow : event -> bool) (p : option nat) {A} (m : M A) : Prop :=
  forall s o s', _parameters s = p -> m s = (o, s') -> frame allow s s'.

(** [m], when it raises anything but a server error, has made no call that
    [allow] excludes. *)
Definition quiet_failure (allow : event -> bool) (p : option nat) {A} (m : M A) : Prop :=
  forall s e s', _parameters s = p -> m s = (Raise e, s') -> e <> ServerError ->
                 frame allow s s'.

(** A string without braces: formatting it leaves it as it is. *)
Fixpoint no_braces (t : string) : bool :=
  match t with
  | EmptyString => true
  | String c t' => negb (Ascii.eqb c "{") && negb (Ascii.eqb c "}") && no_braces t'
  end.

(** A server as [example_server], but whose models are of a category the
    builder does not know. *)
Definition example_server_unknown : Server :=
  mkServer (srv_send_frame example_server) (srv_builder_parameters example_server)
           (srv_build example_server)
           (fun _ _ => Some (mkModelJson "AutoEncoder" 7))
           (srv_predict example_server) (srv_frame example_server)
           (srv_remove example_server).

(** The builder after a [fit] against that server has failed. *)
Definition example_unknown : state :=
  (fit example_server_unknown (VList [VInt 0; VInt 2]) (VStr "d") VNone
       example_builder).2.

(** A builder that was given no training frame. *)
Definition example_frameless : state :=
  __init__ example_attrs None "gbm" VNone [].

(** A builder that stores its features and target. *)
Definition example_stored : state :=
  (_update (__init__ (<["x" := Data (VList [VStr "a"; VStr "c"])]>
                      (<["y" := Data (VStr "d")]> ∅))
                     None "gbm" (VFrame example_frame) [])).2.

(** * Proofs *)

(** ** Dictionaries built from lists *)

Lemma foldl_insert_lookup (l : list (string * pyval)) (acc : pydict) (k : string) :
  NoDup l.*1 ->
  foldl (fun d kv => <[kv.1 := kv.2]> d) acc l !! k =
  match (list_to_map l : pydict) !! k with Some v => Some v | None => acc !! k end.
Proof.
  revert acc. induction l as [|[a b] l IH]; intros acc Hnd; simpl.
  - by rewrite lookup_empty.
  - apply NoDup_cons in Hnd as [Ha Hnd]. cbn [fst snd] in Ha. rewrite IH by done.
    destruct (decide (a = k)) as [->|Hne].
    + change (list_to_map ((k, b) :: l) : pydict) with (<[k := b]> (list_to_map l : pydict)).
      rewrite !lookup_insert_eq.
      apply (not_elem_of_list_to_map_1 (M := gmap string)) in Ha. simpl. by rewrite Ha.
    + change (list_to_map ((a, b) :: l) : pydict) with (<[a := b]> (list_to_map l : pydict)).
      by rewrite !lookup_insert_ne by done.
Qed.

Lemma dict_of_pairs_lookup (l : list (string * pyval)) (k : string) (v : pyval) :
  NoDup l.*1 -> dict_of_pairs l !! k = Some v <-> (k, v) ∈ l.
Proof.
  intros Hnd. unfold dict_of_pairs. rewrite foldl_insert_lookup by done.
  rewrite lookup_empty. rewrite elem_of_list_to_map by done.
  destruct (list_to_map l !! k); naive_solver.
Qed.

Lemma elem_of_keys (d : pydict) (k : string) : k ∈ keys d <-> is_Some (d !! k).
Proof.
  unfold keys. rewrite list_elem_of_fmap. split.
  - intros ([k' v] & -> & Hin). apply elem_of_map_to_list in Hin. by exists v.
  - intros [v Hv]. exists (k, v). split; [done|]. by apply elem_of_map_to_list.
Qed.

Lemma elem_of_dir (o : gmap string attr) (n : string) : n ∈ dir o <-> is_Some (o !! n).
Proof.
  unfold dir. rewrite list_elem_of_fmap. split.
  - intros ([k' v] & -> & Hin). apply elem_of_map_to_list in Hin. by exists v.
  - intros [v Hv]. exists (n, v). split; [done|]. by apply elem_of_map_to_list.
Qed.

(** ** [_update] *)

Lemma getattr_pairs_fst (o : gmap string attr) (a : list string) :
  (forall n, n ∈ a -> is_public_data o n = true) -> (getattr_pairs o a).*1 = a.
Proof.
  induction a as [|n a IH]; intros Hpub; [done|].
  unfold getattr_pairs in *. simpl.
  assert (Hn : is_public_data o n = true) by (apply Hpub; left).
  unfold is_public_data in Hn.
  destruct (o !! n) as [[|v]|]; try discriminate. simpl.
  f_equal. apply IH. intros m Hm. apply Hpub. by right.
Qed.

Lemma public_data_names_spec (o : gmap string attr) (n : string) :
  n ∈ public_data_names o <-> is_public_data o n = true.
Proof.
  unfold public_data_names. rewrite list_elem_of_filter, elem_of_dir.
  rewrite Is_true_true. split; [tauto|]. intros H. split; [done|].
  unfold is_public_data in H. destruct (o !! n); [eauto|discriminate].
Qed.

Lemma collected_dict_lookup (o : gmap string attr) (key : string) :
  dict_of_pairs (getattr_pairs o (public_data_names o)) !! key = collected o key.
Proof.
  assert (Hfst : (getattr_pairs o (public_data_names o)).*1 = public_data_names o).
  { apply getattr_pairs_fst. intros n. apply public_data_names_spec. }
  assert (Hnd : NoDup (getattr_pairs o (public_data_names o)).*1).
  { rewrite Hfst. apply NoDup_filter, NoDup_fst_map_to_list. }
  apply option_eq. intros v. rewrite dict_of_pairs_lookup by done.
  unfold getattr_pairs. rewrite list_elem_of_omap. unfold collected. split.
  - intros (n & Hn & Hv). apply public_data_names_spec in Hn.
    unfold is_public_data in Hn.
    destruct (o !! n) as [[|w]|] eqn:Hon; try discriminate.
    injection Hv as <- <-. rewrite Hon. simpl in Hn.
    by destruct (startswith_underscore n).
  - intros Hv. exists key.
    destruct (o !! key) as [[|w]|] eqn:Hon; try discriminate.
    destruct (startswith_underscore key) eqn:Hu; try discriminate.
    injection Hv as ->. split; [|done].
    apply public_data_names_spec. unfold is_public_data. by rewrite Hon, Hu.
Qed.

Lemma replace_inf_lookup (d : pydict) (a k : string) :
  replace_inf d a !! k = if decide (a = k) then stored_value <$> d !! k else d !! k.
Proof.
  unfold replace_inf. case_decide as Hak; subst.
  - destruct (d !! k) as [v|] eqn:Hd; [|by rewrite Hd].
    destruct v as [| | |f| | | |]; simpl; rewrite ?Hd; try done.
    destruct (isinf f); simpl; [by rewrite lookup_insert_eq|by rewrite Hd].
  - destruct (d !! a) as [v|]; [|done].
    destruct v as [| | |f| | | |]; try done.
    destruct (isinf f); [by rewrite lookup_insert_ne|done].
Qed.

Lemma stored_value_idemp (v : pyval) : stored_value (stored_value v) = stored_value v.
Proof. destruct v as [| | |[]| | | |]; done. Qed.

Lemma foldl_replace_inf_lookup (ks : list string) (d : pydict) (k : string) :
  foldl replace_inf d ks !! k =
  if decide (k ∈ ks) then stored_value <$> d !! k else d !! k.
Proof.
  revert d. induction ks as [|a ks IH]; intros d; cbn [foldl].
  - case_decide as H; [by apply elem_of_nil in H|done].
  - rewrite IH, replace_inf_lookup.
    destruct (decide (a = k)) as [->|Hne].
    + rewrite (decide_True (P := k ∈ k :: ks)) by left.
      case_decide; [|done]. rewrite <- option_fmap_compose.
      destruct (d !! k); simpl; [|done]. by rewrite stored_value_idemp.
    + destruct (decide (k ∈ ks)) as [Hin|Hnin].
      * by rewrite (decide_True (P := k ∈ a :: ks)) by (by right).
      * rewrite (decide_False (P := k ∈ a :: ks)); [done|].
        intros [->|?]%elem_of_cons; done.
Qed.

Lemma replace_all_inf_lookup (d : pydict) (k : string) :
  foldl replace_inf d (keys d) !! k = stored_value <$> d !! k.
Proof.
  rewrite foldl_replace_inf_lookup. case_decide as Hin; [done|].
  rewrite elem_of_keys in Hin. destruct (d !! k); [|done].
  exfalso. eauto.
Qed.

(** [_update] never raises, makes no call, and leaves [self._parameters]
    referring to a new dictionary, which it also returns. *)
Lemma _update_run (s : state) :
  let r := length (heap s) in
  let d0 := dict_of_pairs (getattr_pairs (attrs s) (public_data_names (attrs s))) in
  let d := foldl replace_inf d0 (keys d0) in
  _update s = (Ok (Some r), set_parameters (Some r) (set_heap (heap s ++ [d]) s)).
Proof.
  intros r d0 d. unfold _update, the_parameters, bind_of, M_bind, bind, get, put, modify, ret.
  simpl. fold r. rewrite lookup_app_r by done. rewrite Nat.sub_diag. simpl.
  unfold set_parameters, set_heap. simpl. repeat f_equal.
  fold d0. fold d. fold r.
  rewrite insert_app_r_alt by done. by rewrite Nat.sub_diag.
Qed.

(** C5. Parameter reconciliation ([_update], the first thing [fit] does and
    before any call to the server) stores, for every collected attribute, the
    integer sentinel [sys.maxint] when its value is a float equal to plus or
    minus infinity, and the value itself otherwise; nothing else is stored. *)
Theorem update_replaces_infinities (s : state) :
  exists (r : nat) (d : pydict) (s' : state),
    _update s = (Ok (Some r), s') /\
    _parameters s' = Some r /\ heap s' !! r = Some d /\
    trace s' = trace s /\ attrs s' = attrs s /\
    forall key : string,
      d !! key = match collected (attrs s) key with
                 | Some (VFloat f) =>
                     if isinf f then Some (VInt sys_maxint) else Some (VFloat f)
                 | other => other
                 end.
Proof.
  eexists _, _, _. split; [apply _update_run|]. simpl.
  split; [done|]. split.
  { rewrite lookup_app_r by done. by rewrite Nat.sub_diag. }
  split; [done|]. split; [done|]. intros key.
  rewrite replace_all_inf_lookup, collected_dict_lookup.
  destruct (collected (attrs s) key) as [[| | |f| | | |]|]; simpl; try done.
  by destruct (isinf f).
Qed.

(** ** Folding defaults and user parameters *)

Lemma fill_lookup (user m : pydict) (a k : string) :
  fill user m a !! k =
  if decide (a = k)
  then match user !! k with Some v => Some v | None => m !! k end
  else m !! k.
Proof.
  unfold fill. case_decide as Hak; subst.
  - destruct (user !! k); [by rewrite lookup_insert_eq|done].
  - destruct (user !! a); [by rewrite lookup_insert_ne|done].
Qed.

Lemma foldl_fill_lookup (user : pydict) (ks : list string) (m : pydict) (k : string) :
  foldl (fill user) m ks !! k =
  if decide (k ∈ ks)
  then match user !! k with Some v => Some v | None => m !! k end
  else m !! k.
Proof.
  revert m. induction ks as [|a ks IH]; intros m; cbn [foldl].
  - case_decide as H; [by apply elem_of_nil in H|done].
  - rewrite IH, fill_lookup.
    destruct (decide (a = k)) as [->|Hne].
    + rewrite (decide_True (P := k ∈ k :: ks)) by left.
      case_decide; by destruct (user !! k).
    + destruct (decide (k ∈ ks)) as [Hin|Hnin].
      * by rewrite (decide_True (P := k ∈ a :: ks)) by (by right).
      * rewrite (decide_False (P := k ∈ a :: ks)); [done|].
        intros [->|?]%elem_of_cons; done.
Qed.

Lemma foldl_delete_lookup (ks : list string) (m : pydict) (k : string) :
  foldl (fun d k => delete k d) m ks !! k =
  if decide (k ∈ ks) then None else m !! k.
Proof.
  revert m. induction ks as [|a ks IH]; intros m; cbn [foldl].
  - case_decide as H; [by apply elem_of_nil in H|done].
  - rewrite IH. destruct (decide (a = k)) as [->|Hne].
    + rewrite (decide_True (P := k ∈ k :: ks)) by left.
      case_decide; [done|]. by rewrite lookup_delete_eq.
    + rewrite lookup_delete_ne by done.
      destruct (decide (k ∈ ks)) as [Hin|Hnin].
      * by rewrite (decide_True (P := k ∈ a :: ks)) by (by right).
      * rewrite (decide_False (P := k ∈ a :: ks)); [done|].
        intros [->|?]%elem_of_cons; done.
Qed.

(** The value of a key after the overlay, before the null keys are popped. *)
Lemma overlay_lookup (defaults user : pydict) (k : string) :
  foldl (fill user) defaults
        (filter (fun k => is_Some (defaults !! k)) (keys user)) !! k =
  (recognised defaults user ∪ defaults) !! k.
Proof.
  rewrite foldl_fill_lookup, lookup_union. unfold recognised.
  rewrite map_lookup_filter. cbn [fst].
  case_decide as Hin.
  - apply list_elem_of_filter in Hin as [Hdef Hk]. apply elem_of_keys in Hk as [v Hv].
    rewrite Hv. simpl. rewrite option_guard_True by done. simpl.
    by destruct (defaults !! k).
  - destruct (user !! k) as [v|] eqn:Hv; simpl; [|by destruct (defaults !! k)].
    destruct (defaults !! k) as [w|] eqn:Hw.
    + exfalso. apply Hin. apply list_elem_of_filter. split; [by rewrite Hw|].
      apply elem_of_keys. eauto.
    + by rewrite option_guard_False by (by intros [? ?]).
Qed.

Lemma fold_params_folded_body (raw : list (string * pyval)) (user : pydict) :
  fold_params raw user = folded_body (dict_of_pairs raw) user.
Proof.
  apply map_eq. intros k. unfold fold_params, folded_body.
  set (defaults := dict_of_pairs raw).
  set (overlaid := foldl (fill user) defaults _).
  rewrite foldl_delete_lookup, map_lookup_filter. cbn [snd].
  rewrite <- overlay_lookup. fold overlaid.
  case_decide as Hin.
  - apply list_elem_of_filter in Hin as [Hnone _]. unfold value_is_None in Hnone.
    destruct (overlaid !! k) as [v|]; [|done]. simpl.
    rewrite option_guard_False; [done|]. destruct (is_None v); [simpl; tauto|done].
  - destruct (overlaid !! k) as [v|] eqn:Hv; [|done]. simpl.
    destruct (is_None v) eqn:Hn.
    + exfalso. apply Hin. apply list_elem_of_filter. split.
      * unfold value_is_None. by rewrite Hv, Hn.
      * apply elem_of_keys. eauto.
    + by rewrite option_guard_True.
Qed.

Lemma folded_body_unrecognised (defaults user : pydict) (k : string) :
  defaults !! k = None -> folded_body defaults user !! k = None.
Proof.
  intros Hk. unfold folded_body, recognised.
  rewrite map_lookup_filter, lookup_union, map_lookup_filter. cbn [fst].
  rewrite Hk. by destruct (user !! k).
Qed.

Lemma folded_body_not_null (defaults user : pydict) (k : string) :
  folded_body defaults user !! k <> Some VNone.
Proof.
  unfold folded_body. intros [_ H]%map_lookup_filter_Some. done.
Qed.

(** ** Running the monad *)

Lemma bind_Ok {A B} (m : M A) (f : A -> M B) (s : state) (b : B) (s' : state) :
  bind_of m f s = (Ok b, s') ->
  exists a s1, m s = (Ok a, s1) /\ f a s1 = (Ok b, s').
Proof.
  unfold bind_of, M_bind, bind. destruct (m s) as [[a|e] s1]; [eauto|discriminate].
Qed.

Lemma bind_run {A B} (m : M A) (f : A -> M B) (s : state) (a : A) (s1 : state) :
  m s = (Ok a, s1) -> bind_of m f s = f a s1.
Proof. unfold bind_of, M_bind, bind. by intros ->. Qed.

Lemma ret_Ok {A} (a b : A) (s s' : state) : ret a s = (Ok b, s') -> b = a /\ s' = s.
Proof. unfold ret. by intros [= <- <-]. Qed.

Lemma get_Ok (s s0 s1 : state) : get s = (Ok s0, s1) -> s0 = s /\ s1 = s.
Proof. unfold get. by intros [= <- <-]. Qed.

Lemma modify_Ok (f : state -> state) (s s' : state) (u : unit) :
  modify f s = (Ok u, s') -> s' = f s.
Proof. unfold modify. by intros [= <-]. Qed.

Lemma lift_Ok {A} (r : result A) (a : A) (s s' : state) :
  lift r s = (Ok a, s') -> r = Ok a /\ s' = s.
Proof. destruct r; unfold lift, ret, raise; [by intros [= <- <-]|discriminate]. Qed.

Lemma post_refl (s : state) (r : nat) (d : pydict) :
  params_at s r d -> post s s r d [].
Proof. intros H. repeat split; try apply H. by rewrite app_nil_r. Qed.

Lemma post_trans (s s1 s2 : state) (r : nat) (d1 d2 : pydict) (e1 e2 : list event) :
  post s s1 r d1 e1 -> post s1 s2 r d2 e2 -> post s s2 r d2 (e1 ++ e2).
Proof.
  intros (_ & Ha & Hb & Ht) (Hp & Ha' & Hb' & Ht'). repeat split; try apply Hp.
  - by rewrite Ha'. 
  - by rewrite Hb'.
  - by rewrite Ht', Ht, app_assoc.
Qed.

Lemma params_at_inj (s : state) (r r' : nat) (d d' : pydict) :
  params_at s r d -> params_at s r' d' -> r' = r /\ d' = d.
Proof. intros [H1 H2] [H3 H4]. split; congruence. Qed.

Lemma the_parameters_Ok (s s' : state) (r : nat) (d : pydict) :
  the_parameters s = (Ok (r, d), s') -> s' = s /\ params_at s r d.
Proof.
  unfold the_parameters, bind_of, M_bind, bind, get, params_at. simpl.
  destruct (_parameters s) as [r0|]; [|discriminate].
  destruct (heap s !! r0) as [d0|] eqn:Hd; [|discriminate].
  unfold ret. intros [= <- <- <-]. eauto.
Qed.

Lemma params_getitem_Ok (k : string) (s s' : state) (v : pyval) (r : nat) (d : pydict) :
  params_getitem k s = (Ok v, s') -> params_at s r d -> s' = s /\ d !! k = Some v.
Proof.
  unfold params_getitem. intros ([r0 d0] & s1 & H1 & H)%bind_Ok Hat.
  apply the_parameters_Ok in H1 as [-> H1].
  destruct (params_at_inj _ _ _ _ _ Hat H1) as [-> ->].
  destruct (d !! k); [|discriminate]. apply ret_Ok in H as [-> ->]. done.
Qed.

Lemma params_contains_Ok (k : string) (s s' : state) (b : bool) (r : nat) (d : pydict) :
  params_contains k s = (Ok b, s') -> params_at s r d ->
  s' = s /\ b = bool_decide (is_Some (d !! k)).
Proof.
  unfold params_contains. intros ([r0 d0] & s1 & H1 & H)%bind_Ok Hat.
  apply the_parameters_Ok in H1 as [-> H1].
  destruct (params_at_inj _ _ _ _ _ Hat H1) as [-> ->].
  apply ret_Ok in H as [-> ->]. done.
Qed.

Lemma params_setitem_Ok (k : string) (v : pyval) (s s' : state) (u : unit)
    (r : nat) (d : pydict) :
  params_setitem k v s = (Ok u, s') -> params_at s r d ->
  post s s' r (<[k := v]> d) [].
Proof.
  unfold params_setitem. intros ([r0 d0] & s1 & H1 & H)%bind_Ok Hat.
  apply the_parameters_Ok in H1 as [-> H1].
  destruct (params_at_inj _ _ _ _ _ Hat H1) as [-> ->].
  unfold modify in H. injection H as H. subst s'. destruct Hat as [Hr Hd].
  repeat split; simpl; try done.
  - apply list_lookup_insert_eq. by apply lookup_lt_Some in Hd.
  - by rewrite app_nil_r.
Qed.

Lemma call_Ok {A} (ev : event) (answer : list event -> option A)
    (s s' : state) (a : A) :
  call ev answer s = (Ok a, s') ->
  answer (trace s) = Some a /\ s' = set_trace (trace s ++ [ev]) s.
Proof.
  unfold call. intros (s0 & s1 & H1 & H)%bind_Ok.
  unfold get in H1. injection H1 as ? ?. subst s0 s1.
  apply bind_Ok in H as (u & s2 & H2 & H).
  unfold put in H2. injection H2 as ?. subst s2.
  destruct (answer (trace s)); [|discriminate].
  apply ret_Ok in H as [-> ->]. done.
Qed.

Lemma call_post {A} (ev : event) (answer : list event -> option A)
    (s s' : state) (a : A) (r : nat) (d : pydict) :
  call ev answer s = (Ok a, s') -> params_at s r d ->
  answer (trace s) = Some a /\ post s s' r d [ev].
Proof.
  intros [Ha ->]%call_Ok Hat. split; [done|]. by repeat split; try apply Hat.
Qed.

(** ** The steps of [fit], one by one *)

Ltac inv_bind H a s1 H1 := apply bind_Ok in H as (a & s1 & H1 & H).

Lemma when_setitem_Ok (b : bool) (k : string) (v : pyval) (s s' : state) (u : unit)
    (r : nat) (d : pydict) :
  when b (params_setitem k v) s = (Ok u, s') -> params_at s r d ->
  post s s' r (if b then <[k := v]> d else d) [].
Proof.
  destruct b; simpl; intros H Hat.
  - by eapply params_setitem_Ok.
  - apply ret_Ok in H as [_ ->]. by apply post_refl.
Qed.

Lemma _set_and_check_x_y_Ok (x y x' y' : pyval) (s s' : state) (r : nat) (d : pydict) :
  _set_and_check_x_y x y s = (Ok (x', y'), s') -> params_at s r d ->
  exists d', post s s' r d' [] /\
             forall k, k <> "x" -> k <> "y" -> d' !! k = d !! k.
Proof.
  unfold _set_and_check_x_y. intros H Hat.
  destruct (negb (truthy x) || negb (truthy y)).
  - inv_bind H stored_x s1 H1.
    destruct (params_getitem_Ok _ _ _ _ _ _ H1 Hat) as [-> _].
    destruct (negb (truthy stored_x)); [discriminate|].
    inv_bind H u1 s1 H2. pose proof (when_setitem_Ok _ _ _ _ _ _ _ _ H2 Hat) as P1.
    inv_bind H u2 s2 H3.
    pose proof (when_setitem_Ok _ _ _ _ _ _ _ _ H3 (proj1 P1)) as P2.
    set (d2 := if truthy y then <["y":=y]> (if truthy x then <["x":=x]> d else d)
               else if truthy x then <["x":=x]> d else d) in *.
    inv_bind H ret_x s3 H4.
    destruct (params_getitem_Ok _ _ _ _ _ _ H4 (proj1 P2)) as [-> _].
    inv_bind H has_y s3 H5.
    destruct (params_contains_Ok _ _ _ _ _ _ H5 (proj1 P2)) as [-> _].
    inv_bind H ret_y s3 H6.
    assert (s3 = s2) as ->.
    { destruct has_y.
      - by destruct (params_getitem_Ok _ _ _ _ _ _ H6 (proj1 P2)).
      - by apply ret_Ok in H6 as [_ ->]. }
    apply ret_Ok in H as [_ ->].
    exists d2. split.
    + apply (post_trans _ _ _ _ _ _ _ _ P1 P2).
    + intros k Hx Hy. unfold d2.
      destruct (truthy y), (truthy x);
        rewrite ?(lookup_insert_ne _ "y"), ?(lookup_insert_ne _ "x") by done; done.
  - apply ret_Ok in H as [_ ->]. exists d. split; [by apply post_refl|done].
Qed.

Lemma get_training_frame_Ok (s s' : state) (tf : pyval) :
  get_training_frame s = (Ok tf, s') ->
  s' = s /\ (attrs s !! "training_frame" = Some (Data tf) \/
             isinstance_H2OFrame tf = false).
Proof.
  unfold get_training_frame. intros H. inv_bind H s0 s1 H1.
  apply get_Ok in H1 as [-> ->].
  destruct (attrs s !! "training_frame") as [[|v]|]; try discriminate;
    apply ret_Ok in H as [-> ->]; auto.
Qed.

Lemma _check_training_frame_Ok (x : pyval) (s s' : state) (dataset : H2OFrame) :
  _check_training_frame x s = (Ok dataset, s') ->
  s' = s /\ attrs s !! "training_frame" = Some (Data (VFrame dataset)).
Proof.
  unfold _check_training_frame. intros H. inv_bind H tf s1 H1.
  apply get_training_frame_Ok in H1 as [-> Htf].
  destruct (negb (truthy tf)); [discriminate|].
  destruct tf as [| | | | | |fr|]; try discriminate.
  destruct Htf as [Htf|?]; [|discriminate].
  inv_bind H selected s1 H2. apply lift_Ok in H2 as [_ ->].
  destruct (negb (truthy selected)).
  - destruct x; discriminate.
  - by apply ret_Ok in H as [-> ->].
Qed.

Lemma _set_ignored_columns_Ok (x y : pyval) (dataset : H2OFrame) (s s' : state)
    (u : unit) (r : nat) (d : pydict) :
  _set_ignored_columns x y dataset s = (Ok u, s') -> params_at s r d ->
  exists ign, ignored_columns (names dataset) x y = Ok ign /\
              post s s' r (<["ignored_columns" := VList (VStr <$> ign)]> d) [].
Proof.
  unfold _set_ignored_columns. intros H Hat. inv_bind H ign s1 H1.
  apply lift_Ok in H1 as [Hign ->]. exists ign. split; [done|].
  by eapply params_setitem_Ok.
Qed.

Lemma _set_training_frame_Ok (srv : Server) (dataset : H2OFrame) (s s' : state)
    (u : unit) (r : nat) (d : pydict) :
  _set_training_frame srv dataset s = (Ok u, s') -> params_at s r d ->
  exists key, srv_send_frame srv (trace s) dataset = Some key /\
              post s s' r (<["training_frame" := VStr key]> d) [EvSendFrame dataset].
Proof.
  unfold _set_training_frame, send_frame. intros H Hat. inv_bind H key s1 H1.
  destruct (call_post _ _ _ _ _ _ _ H1 Hat) as [Hkey P1].
  exists key. split; [done|].
  pose proof (params_setitem_Ok _ _ _ _ _ _ _ H (proj1 P1)) as P2.
  apply (post_trans _ _ _ _ _ _ _ _ P1 P2).
Qed.

Lemma _set_validation_frame_Ok (srv : Server) (validation_frame : pyval)
    (s s' : state) (u : unit) (r : nat) (d : pydict) :
  _set_validation_frame srv validation_frame s = (Ok u, s') -> params_at s r d ->
  match validation_choice d validation_frame with
  | None => s' = s
  | Some v =>
      exists fr key, v = VFrame fr /\
        srv_send_frame srv (trace s) fr = Some key /\
        post s s' r (<["validation_frame" := VStr key]> d) [EvSendFrame fr]
  end.
Proof.
  unfold _set_validation_frame, validation_choice. intros H Hat.
  inv_bind H given s1 H1.
  destruct (truthy validation_frame) eqn:Htruthy.
  - apply ret_Ok in H1 as [-> ->]. inv_bind H nothing s1 H1.
    apply ret_Ok in H1 as [-> ->]. inv_bind H u1 s1 H1.
    pose proof (params_setitem_Ok _ _ _ _ _ _ _ H1 Hat) as P1.
    inv_bind H v s2 H2.
    destruct (params_getitem_Ok _ _ _ _ _ _ H2 (proj1 P1)) as [-> Hv].
    rewrite lookup_insert_eq in Hv. injection Hv as <-.
    destruct validation_frame as [| | | | | |fr|]; try discriminate.
    inv_bind H key s2 H3. unfold send_frame in H3.
    destruct (call_post _ _ _ _ _ _ _ H3 (proj1 P1)) as [Hkey P2].
    pose proof (params_setitem_Ok _ _ _ _ _ _ _ H (proj1 P2)) as P3.
    rewrite insert_insert_eq in P3.
    exists fr, key. split; [done|]. split.
    + destruct P1 as (_ & _ & _ & Ht). rewrite Ht, app_nil_r in Hkey. done.
    + apply (post_trans _ _ _ _ _ _ _ _ P1 (post_trans _ _ _ _ _ _ _ _ P2 P3)).
  - destruct (params_contains_Ok _ _ _ _ _ _ H1 Hat) as [-> ->].
    destruct (d !! "validation_frame") as [v0|] eqn:Hv0.
    + rewrite bool_decide_true in H by eauto.
      inv_bind H nothing s1 H2. inv_bind H2 v s2 H3.
      destruct (params_getitem_Ok _ _ _ _ _ _ H3 Hat) as [-> Hv].
      rewrite Hv0 in Hv. injection Hv as <-.
      apply ret_Ok in H2 as [-> ->].
      destruct (truthy v0) eqn:Hv0t; simpl in H.
      * inv_bind H u1 s1 H1'. apply ret_Ok in H1' as [_ ->].
        inv_bind H v s2 H2.
        destruct (params_getitem_Ok _ _ _ _ _ _ H2 Hat) as [-> Hv].
        rewrite Hv0 in Hv. injection Hv as <-.
        destruct v0 as [| | | | | |fr|]; try discriminate.
        inv_bind H key s2 H4. unfold send_frame in H4.
        destruct (call_post _ _ _ _ _ _ _ H4 Hat) as [Hkey P2].
        pose proof (params_setitem_Ok _ _ _ _ _ _ _ H (proj1 P2)) as P3.
        exists fr, key. split; [done|]. split; [done|].
        apply (post_trans _ _ _ _ _ _ _ _ P2 P3).
      * by apply ret_Ok in H as [_ ->].
    + rewrite bool_decide_false in H by (by intros [? ?]).
      by apply ret_Ok in H as [_ ->].
Qed.

Lemma _fold_default_params_with_user_params_Ok (srv : Server) (s s' : state)
    (body : pydict) (r : nat) (d : pydict) :
  _fold_default_params_with_user_params srv s = (Ok body, s') -> params_at s r d ->
  exists raw, srv_builder_parameters srv (trace s) (_algo s) = Some raw /\
              body = fold_params raw d /\
              post s s' r d [EvGet ("ModelBuilders/" +:+ _algo s)].
Proof.
  unfold _fold_default_params_with_user_params. intros H Hat.
  inv_bind H s0 s1 H1. apply get_Ok in H1 as [-> ->].
  inv_bind H raw s1 H1. destruct (call_post _ _ _ _ _ _ _ H1 Hat) as [Hraw P1].
  inv_bind H rd s2 H2. destruct rd as [r0 d0].
  apply the_parameters_Ok in H2 as [-> H2].
  destruct (params_at_inj _ _ _ _ _ (proj1 P1) H2) as [-> ->].
  apply ret_Ok in H as [-> ->]. eauto.
Qed.

Lemma _set_fitted_model_and_model_type_Ok (srv : Server) (destination_key : string)
    (s s' : state) (u : unit) (r : nat) (d : pydict) :
  _set_fitted_model_and_model_type srv destination_key s = (Ok u, s') ->
  params_at s r d ->
  post s s' r d [EvGet ("Models/" +:+ destination_key)].
Proof.
  unfold _set_fitted_model_and_model_type. intros H Hat.
  inv_bind H u0 s1 H1. apply modify_Ok in H1 as ->.
  inv_bind H model s1 H1. apply call_Ok in H1 as [_ ->].
  inv_bind H s0 s1 H1. apply get_Ok in H1 as [-> ->].
  inv_bind H model_type s1 H1.
  assert (s1 = set_trace (trace (set_model_key (Some destination_key) s) ++
                          [EvGet ("Models/" +:+ destination_key)])
                         (set_model_key (Some destination_key) s)) as ->.
  { destruct (format _ _); try discriminate. by apply ret_Ok in H1 as [_ ->]. }
  clear H1. inv_bind H u1 s1 H1. apply modify_Ok in H1 as ->.
  inv_bind H s0 s1 H1. apply get_Ok in H1 as [-> ->].
  destruct (wrapper_of _); [|discriminate].
  inv_bind H u2 s1 H1. apply modify_Ok in H1 as ->.
  apply modify_Ok in H as ->.
  destruct Hat as [Hr Hd]. by repeat split.
Qed.

(** ** [fit] as a whole *)

Lemma truthy_stored_value (v : pyval) : truthy (stored_value v) = truthy v.
Proof. destruct v as [| | |[]| | | |]; done. Qed.

Lemma stored_value_frame (v : pyval) (fr : H2OFrame) :
  stored_value v = VFrame fr -> v = VFrame fr.
Proof. destruct v as [| | |[? ?| |]| | | |]; simpl; congruence. Qed.

(** The dictionary [_update] leaves behind. *)
Lemma _update_Ok (s : state) :
  exists (snapshot : pydict),
    let r := length (heap s) in
    let s0 := set_parameters (Some r) (set_heap (heap s ++ [snapshot]) s) in
    _update s = (Ok (Some r), s0) /\ params_at s0 r snapshot /\
    forall k, snapshot !! k = stored_value <$> collected (attrs s) k.
Proof.
  eexists. cbn zeta. split; [apply _update_run|]. split.
  - split; [done|]. simpl. rewrite lookup_app_r by done. by rewrite Nat.sub_diag.
  - intros k. by rewrite replace_all_inf_lookup, collected_dict_lookup.
Qed.

(** A successful [fit], step by step: the dictionary the builder ends up
    with and the calls it made. *)
Lemma fit_Ok (srv : Server) (x y validation_frame : pyval) (s s' : state) (u : unit) :
  fit srv x y validation_frame s = (Ok u, s') ->
  exists (snapshot final : pydict) (dataset : H2OFrame) (key : string)
         (body : pydict) (dest : string),
    let r := length (heap s) in
    let builders := "ModelBuilders/" +:+ _algo s in
    (forall k, snapshot !! k = stored_value <$> collected (attrs s) k) /\
    params_at (_update s).2 r snapshot /\
    attrs s !! "training_frame" = Some (Data (VFrame dataset)) /\
    srv_send_frame srv (trace s) dataset = Some key /\
    params_at s' r final /\
    final !! "training_frame" = Some (VStr key) /\
    is_Some (final !! "ignored_columns") /\
    (exists raw t, srv_builder_parameters srv t (_algo s) = Some raw /\
                   body = fold_params raw final) /\
    match validation_for_call s validation_frame with
    | Some v =>
        exists fr vkey, v = VFrame fr /\
          srv_send_frame srv (trace s ++ [EvSendFrame dataset]) fr = Some vkey /\
          final !! "validation_frame" = Some (VStr vkey) /\
          trace s' = trace s ++
            [EvSendFrame dataset; EvSendFrame fr; EvGet builders;
             EvPost builders body; EvGet ("Models/" +:+ dest);
             EvRemove (VStr key); EvRemove (VStr vkey)]
    | None =>
        exists last,
          trace s' = trace s ++
            [EvSendFrame dataset; EvGet builders; EvPost builders body;
             EvGet ("Models/" +:+ dest); EvRemove (VStr key)] ++ last /\
          (last = [] \/ exists v, last = [EvRemove v] /\ truthy v = false)
    end.
Proof.
  intros H. unfold fit in H.
  destruct (_update_Ok s) as (snapshot & Hrun & Hat0 & Hsnap). cbn zeta in *.
  set (r := length (heap s)) in *.
  set (s0 := set_parameters (Some r) (set_heap (heap s ++ [snapshot]) s)) in *.
  rewrite (bind_run _ _ _ _ _ Hrun) in H.
  assert (Ha0 : attrs s0 = attrs s) by done.
  assert (Hg0 : _algo s0 = _algo s) by done.
  assert (Ht0 : trace s0 = trace s) by done.
  inv_bind H xy s1 H1. destruct xy as [x1 y1].
  destruct (_set_and_check_x_y_Ok _ _ _ _ _ _ _ _ H1 Hat0) as (d1 & P1 & Hd1).
  inv_bind H dataset s2 H2.
  apply _check_training_frame_Ok in H2 as [-> Hds].
  rewrite (proj1 (proj2 P1)), Ha0 in Hds.
  inv_bind H xy s2 H3. destruct xy as [x2 y2]. apply lift_Ok in H3 as [_ ->].
  inv_bind H u1 s2 H4.
  destruct (_set_ignored_columns_Ok _ _ _ _ _ _ _ _ H4 (proj1 P1)) as (ign & _ & P2).
  pose proof (post_trans _ _ _ _ _ _ _ _ P1 P2) as Q2. clear P2.
  inv_bind H u2 s3 H5. unfold _set_response_column in H5.
  pose proof (when_setitem_Ok _ _ _ _ _ _ _ _ H5 (proj1 Q2)) as P3.
  pose proof (post_trans _ _ _ _ _ _ _ _ Q2 P3) as Q3. clear P3.
  set (d3 := if truthy y2 then _ else _) in Q3.
  inv_bind H u3 s4 H6.
  destruct (_set_training_frame_Ok _ _ _ _ _ _ _ H6 (proj1 Q3)) as (key & Hkey & P4).
  pose proof (post_trans _ _ _ _ _ _ _ _ Q3 P4) as Q4. clear P4.
  set (d4 := <["training_frame" := VStr key]> d3) in *.
  assert (Hkey' : srv_send_frame srv (trace s) dataset = Some key).
  { destruct Q3 as (_ & _ & _ & Ht). by rewrite Ht, Ht0, app_nil_r in Hkey. }
  assert (Hval4 : d4 !! "validation_frame" =
                  stored_value <$> collected (attrs s) "validation_frame").
  { unfold d4, d3. rewrite lookup_insert_ne by done.
    destruct (truthy y2); rewrite !lookup_insert_ne by done;
      rewrite Hd1 by done; apply Hsnap. }
  assert (Hign4 : is_Some (d4 !! "ignored_columns")).
  { unfold d4, d3. rewrite lookup_insert_ne by done.
    destruct (truthy y2); rewrite ?lookup_insert_ne by done;
      rewrite lookup_insert_eq; eauto. }
  assert (Htf4 : d4 !! "training_frame" = Some (VStr key)).
  { unfold d4. by rewrite lookup_insert_eq. }
  clearbody d4. clear d3 Q2 Q3 Hd1 P1 H1 H4 H5 H6 Hkey.
  inv_bind H u4 s5 H7.
  pose proof (_set_validation_frame_Ok _ _ _ _ _ _ _ H7 (proj1 Q4)) as Hvf.
  exists snapshot.
  assert (Hchoice :
    match validation_for_call s validation_frame with
    | Some v => exists w, validation_choice d4 validation_frame = Some w /\
                  forall fr, w = VFrame fr -> v = VFrame fr
    | None => validation_choice d4 validation_frame = None
    end).
  { unfold validation_for_call, validation_choice. rewrite Hval4.
    destruct (truthy validation_frame); [eauto|].
    destruct (collected (attrs s) "validation_frame") as [v|]; simpl; [|done].
    rewrite truthy_stored_value. destruct (truthy v); [|done].
    eexists. split; [done|]. apply stored_value_frame. }
  destruct (validation_for_call s validation_frame) as [v|].
  - destruct Hchoice as (w & Hw & Hfr). rewrite Hw in Hvf.
    destruct Hvf as (fr & vkey & -> & Hvkey & P5).
    pose proof (post_trans _ _ _ _ _ _ _ _ Q4 P5) as Q5. clear P5.
    set (d5 := <["validation_frame" := VStr vkey]> d4) in *.
    inv_bind H body s6 H8.
    destruct (_fold_default_params_with_user_params_Ok _ _ _ _ _ _ H8 (proj1 Q5))
      as (raw & Hraw & Hbody & P6).
    pose proof (post_trans _ _ _ _ _ _ _ _ Q5 P6) as Q6. clear P6.
    inv_bind H sx s7 H9. apply get_Ok in H9 as [-> ->].
    inv_bind H dest s7 H10.
    destruct (call_post _ _ _ _ _ _ _ H10 (proj1 Q6)) as [_ P7].
    pose proof (post_trans _ _ _ _ _ _ _ _ Q6 P7) as Q7. clear P7.
    inv_bind H u5 s8 H11.
    pose proof (_set_fitted_model_and_model_type_Ok _ _ _ _ _ _ _ H11 (proj1 Q7)) as P8.
    pose proof (post_trans _ _ _ _ _ _ _ _ Q7 P8) as Q8. clear P8.
    inv_bind H tk s9 H12.
    destruct (params_getitem_Ok _ _ _ _ _ _ H12 (proj1 Q8)) as [-> Htk].
    unfold d5 in Htk. rewrite lookup_insert_ne, Htf4 in Htk by done.
    injection Htk as <-.
    inv_bind H u6 s9 H13. unfold h2o_remove in H13.
    destruct (call_post _ _ _ _ _ _ _ H13 (proj1 Q8)) as [_ P9].
    pose proof (post_trans _ _ _ _ _ _ _ _ Q8 P9) as Q9. clear P9.
    inv_bind H has s10 H14.
    destruct (params_contains_Ok _ _ _ _ _ _ H14 (proj1 Q9)) as [-> ->].
    unfold d5 in H. rewrite lookup_insert_eq in H.
    rewrite bool_decide_true in H by eauto.
    inv_bind H u7 s10 H15. inv_bind H15 vk s11 H16.
    destruct (params_getitem_Ok _ _ _ _ _ _ H16 (proj1 Q9)) as [-> Hvk].
    unfold d5 in Hvk. rewrite lookup_insert_eq in Hvk. injection Hvk as <-.
    simpl in H15. unfold h2o_remove in H15.
    destruct (call_post _ _ _ _ _ _ _ H15 (proj1 Q9)) as [_ P10].
    pose proof (post_trans _ _ _ _ _ _ _ _ Q9 P10) as Q10. clear P10.
    apply modify_Ok in H as ->.
    destruct Q10 as ((Hr10 & Hd10) & Ha10 & Hg10 & Ht10).
    destruct Q4 as (_ & _ & Hg4 & Ht4).
    destruct Q5 as (_ & _ & Hg5 & _). destruct Q6 as (_ & _ & Hg6 & _).
    exists d5, dataset, key, body, dest. cbn zeta.
    split; [done|]. split; [by rewrite Hrun|].
    split; [done|]. split; [done|].
    split; [by split|]. split; [by unfold d5; rewrite lookup_insert_ne|].
    split; [by unfold d5; rewrite lookup_insert_ne|].
    split; [rewrite Hg5, Hg0 in Hraw; eauto|].
    exists fr, vkey. split; [by apply Hfr|]. split.
    { by rewrite Ht4, Ht0 in Hvkey. }
    split; [by unfold d5; rewrite lookup_insert_eq|].
    simpl. rewrite Ht10, Ht0, Hg5, Hg6, Hg0. simpl. done.
  - rewrite Hchoice in Hvf. subst s5.
    inv_bind H body s6 H8.
    destruct (_fold_default_params_with_user_params_Ok _ _ _ _ _ _ H8 (proj1 Q4))
      as (raw & Hraw & Hbody & P6).
    pose proof (post_trans _ _ _ _ _ _ _ _ Q4 P6) as Q6. clear P6.
    inv_bind H sx s7 H9. apply get_Ok in H9 as [-> ->].
    inv_bind H dest s7 H10.
    destruct (call_post _ _ _ _ _ _ _ H10 (proj1 Q6)) as [_ P7].
    pose proof (post_trans _ _ _ _ _ _ _ _ Q6 P7) as Q7. clear P7.
    inv_bind H u5 s8 H11.
    pose proof (_set_fitted_model_and_model_type_Ok _ _ _ _ _ _ _ H11 (proj1 Q7)) as P8.
    pose proof (post_trans _ _ _ _ _ _ _ _ Q7 P8) as Q8. clear P8.
    inv_bind H tk s9 H12.
    destruct (params_getitem_Ok _ _ _ _ _ _ H12 (proj1 Q8)) as [-> Htk].
    rewrite Htf4 in Htk. injection Htk as <-.
    inv_bind H u6 s9 H13. unfold h2o_remove in H13.
    destruct (call_post _ _ _ _ _ _ _ H13 (proj1 Q8)) as [_ P9].
    pose proof (post_trans _ _ _ _ _ _ _ _ Q8 P9) as Q9. clear P9.
    inv_bind H has s10 H14.
    destruct (params_contains_Ok _ _ _ _ _ _ H14 (proj1 Q9)) as [-> ->].
    inv_bind H u7 s10 H15.
    apply modify_Ok in H as ->.
    destruct Q4 as (_ & _ & Hg4 & Ht4).
    assert (Hlast : exists last,
      post s0 s10 r d4 ([] ++ [] ++ [] ++ [EvSendFrame dataset] ++
        [EvGet ("ModelBuilders/" +:+ _algo s4)] ++
        [EvPost ("ModelBuilders/" +:+ _algo s6) body] ++
        [EvGet ("Models/" +:+ dest)] ++ [EvRemove (VStr key)] ++ last) /\
      (last = [] \/ exists v, last = [EvRemove v] /\ truthy v = false)).
    { unfold validation_choice in Hchoice.
      destruct (truthy validation_frame); [discriminate|].
      destruct (d4 !! "validation_frame") as [v|] eqn:Hv.
      - rewrite bool_decide_true in H15 by eauto.
        inv_bind H15 vk s11 H16.
        destruct (params_getitem_Ok _ _ _ _ _ _ H16 (proj1 Q9)) as [-> Hvk].
        rewrite Hv in Hvk. injection Hvk as <-.
        destruct (truthy v) eqn:Hvt; [discriminate|].
        destruct (is_None v) eqn:Hnone; simpl in H15.
        + apply ret_Ok in H15 as [_ ->]. exists []. split; [|by left].
          by rewrite !app_nil_r in *.
        + unfold h2o_remove in H15.
          destruct (call_post _ _ _ _ _ _ _ H15 (proj1 Q9)) as [_ P10].
          pose proof (post_trans _ _ _ _ _ _ _ _ Q9 P10) as Q10.
          exists [EvRemove v]. split; [|right; eauto].
          by rewrite <- !app_assoc in Q10.
      - rewrite bool_decide_false in H15 by (by intros [? ?]).
        apply ret_Ok in H15 as [_ ->]. exists []. split; [|by left].
        by rewrite !app_nil_r in *. }
    destruct Hlast as (last & ((Hr10 & Hd10) & Ha10 & Hg10 & Ht10) & Hl).
    destruct Q6 as (_ & _ & Hg6 & _).
    exists d4, dataset, key, body, dest. cbn zeta.
    split; [done|]. split; [by rewrite Hrun|].
    split; [done|]. split; [done|].
    split; [by split|]. split; [done|]. split; [done|].
    split; [rewrite Hg4, Hg0 in Hraw; eauto|].
    exists last. split; [|done].
    simpl. rewrite Ht10, Ht0, Hg6, Hg4, Hg0. simpl. done.
Qed.

(** ** The claims about [fit] *)

(** C1. A successful [fit] does not leave the builder with the parameter
    mapping it had before the request was built: [saved_parameters] is the
    very dictionary [fit] goes on to update, so after the return the
    builder's mapping holds the ignored columns and, under
    ["training_frame"], the temporary key instead of the frame. *)
Theorem fit_leaves_parameters_mutated (srv : Server) (x y validation_frame : pyval)
    (s s' : state) (u : unit) :
  fit srv x y validation_frame s = (Ok u, s') ->
  exists (r : nat) (snapshot final : pydict) (dataset : H2OFrame) (key : string),
    params_at (_update s).2 r snapshot /\
    params_at s' r final /\
    snapshot !! "training_frame" = Some (VFrame dataset) /\
    final !! "training_frame" = Some (VStr key) /\
    is_Some (final !! "ignored_columns") /\
    final <> snapshot.
Proof.
  intros H. apply fit_Ok in H
    as (snapshot & final & dataset & key & body & dest & H);
    cbn zeta in H.
  destruct H as (Hsnap & Hat0 & Hds & _ & Hat & Htf & Hign & _ & _).
  assert (Hs : snapshot !! "training_frame" = Some (VFrame dataset)).
  { rewrite Hsnap. unfold collected. by rewrite Hds. }
  exists (length (heap s)), snapshot, final, dataset, key.
  repeat split; try done; try apply Hat0; try apply Hat.
  intros ->. congruence.
Qed.

(** C6. A successful [fit] asks the server to remove the key it got for the
    training frame and, when a validation frame was passed or set, the key it
    got for that frame too; these removals come last. *)
Theorem fit_removes_temporary_frames (srv : Server) (x y validation_frame : pyval)
    (s s' : state) (u : unit) :
  fit srv x y validation_frame s = (Ok u, s') ->
  exists (dataset : H2OFrame) (key : string) (body : pydict) (dest : string),
    let builders := "ModelBuilders/" +:+ _algo s in
    attrs s !! "training_frame" = Some (Data (VFrame dataset)) /\
    srv_send_frame srv (trace s) dataset = Some key /\
    match validation_for_call s validation_frame with
    | Some v =>
        exists fr vkey, v = VFrame fr /\
          srv_send_frame srv (trace s ++ [EvSendFrame dataset]) fr = Some vkey /\
          trace s' = trace s ++
            [EvSendFrame dataset; EvSendFrame fr; EvGet builders;
             EvPost builders body; EvGet ("Models/" +:+ dest);
             EvRemove (VStr key); EvRemove (VStr vkey)]
    | None =>
        exists last,
          trace s' = trace s ++
            [EvSendFrame dataset; EvGet builders; EvPost builders body;
             EvGet ("Models/" +:+ dest); EvRemove (VStr key)] ++ last /\
          (last = [] \/ exists v, last = [EvRemove v] /\ truthy v = false)
    end.
Proof.
  intros H. apply fit_Ok in H
    as (snapshot & final & dataset & key & body & dest & H);
    cbn zeta in H.
  destruct H as (_ & _ & Hds & Hkey & _ & _ & _ & _ & Hval).
  exists dataset, key, body, dest. cbn zeta. split; [done|]. split; [done|].
  destruct (validation_for_call s validation_frame).
  - destruct Hval as (fr & vkey & ? & ? & _ & ?). eauto.
  - done.
Qed.

Lemma params_getitem_run (k : string) (s : state) (r : nat) (d : pydict) :
  params_at s r d ->
  params_getitem k s =
  (match d !! k with Some v => Ok v | None => Raise (KeyError k) end, s).
Proof.
  intros [Hr Hd]. unfold params_getitem, the_parameters, bind_of, M_bind, bind, get.
  rewrite Hr, Hd. unfold ret. by destruct (d !! k).
Qed.

(** C3. [fit] raises the missing-features error, before any call to the
    server, although the call supplies features: it is enough that the
    target is absent and that no features are stored on the builder. *)
Theorem fit_rejects_supplied_features (srv : Server) (x y validation_frame : pyval)
    (s : state) (stored : pyval) :
  truthy x = true -> truthy y = false ->
  collected (attrs s) "x" = Some stored -> truthy stored = false ->
  exists s', fit srv x y validation_frame s = (Raise (ValueError MissingFeatures), s') /\
             trace s' = trace s.
Proof.
  intros Hx Hy Hstored Hfalse.
  destruct (_update_Ok s) as (snapshot & Hrun & Hat0 & Hsnap). cbn zeta in *.
  eexists. unfold fit. rewrite (bind_run _ _ _ _ _ Hrun).
  unfold _set_and_check_x_y. rewrite Hx, Hy. simpl.
  unfold bind_of, M_bind, bind. rewrite (params_getitem_run _ _ _ _ Hat0).
  rewrite Hsnap, Hstored. simpl. rewrite truthy_stored_value, Hfalse. simpl.
  unfold raise. split; [reflexivity|done].
Qed.

(** C4. The request body is the server's defaults overlaid with the
    builder's value for every key the builder has and the server recognises,
    without the keys whose value is null; so a key the server does not
    declare is absent, and no key is sent with a null value. *)
Theorem fold_params_matches_spec (srv : Server) (s s' : state) (body : pydict) :
  _fold_default_params_with_user_params srv s = (Ok body, s') ->
  exists (raw : list (string * pyval)) (r : nat) (user : pydict),
    srv_builder_parameters srv (trace s) (_algo s) = Some raw /\
    params_at s r user /\
    body = folded_body (dict_of_pairs raw) user /\
    (forall k, dict_of_pairs raw !! k = None -> body !! k = None) /\
    (forall k, body !! k <> Some VNone).
Proof.
  unfold _fold_default_params_with_user_params. intros H.
  inv_bind H s0 s1 H1. apply get_Ok in H1 as [-> ->].
  inv_bind H raw s1 H1. apply call_Ok in H1 as [Hraw ->].
  inv_bind H rd s2 H2. destruct rd as [r user].
  apply the_parameters_Ok in H2 as [-> Hat].
  apply ret_Ok in H as [-> ->].
  exists raw, r, user. split; [done|]. split; [done|].
  rewrite fold_params_folded_body. split; [done|]. split.
  - intros k. apply folded_body_unrecognised.
  - intros k. apply folded_body_not_null.
Qed.


(** ** Dispatch on the model category *)

Lemma wrapper_of_Some (t : string) (w : wrapper) :
  wrapper_of t = Some w ->
  t = BINOMIAL \/ t = MULTINOMIAL \/ t = CLUSTERING \/ t = REGRESSION.
Proof.
  unfold wrapper_of.
  destruct (String.eqb t BINOMIAL) eqn:E1; [apply String.eqb_eq in E1; auto|].
  destruct (String.eqb t MULTINOMIAL) eqn:E2; [apply String.eqb_eq in E2; auto|].
  destruct (String.eqb t CLUSTERING) eqn:E3; [apply String.eqb_eq in E3; auto|].
  destruct (String.eqb t REGRESSION) eqn:E4; [apply String.eqb_eq in E4; auto|].
  discriminate.
Qed.

(** Once the template has been filled in it has no field left, and
    formatting it with any category gives it back. *)
Lemma format_filled_template (t cat : string) (w : wrapper) :
  wrapper_of t = Some w -> format t cat = Formatted t.
Proof.
  intros [->|[->|[->| ->]]]%wrapper_of_Some; reflexivity.
Qed.

(** C2. On a builder that has been fitted before, the wrapper is chosen by
    the category of the earlier model: whatever category the server reports
    now, the model type stays what it was, and its wrapper is built. *)
Theorem dispatch_keeps_first_category (srv : Server) (destination_key : string)
    (s : state) (model : model_json) (w : wrapper) :
  srv_model srv (trace s) destination_key = Some model ->
  wrapper_of (_model_type s) = Some w ->
  exists s',
    _set_fitted_model_and_model_type srv destination_key s = (Ok tt, s') /\
    _model_type s' = _model_type s /\
    _fitted_model s' =
      Some (mkFitted w (mj_output model) (_algo s) (Some destination_key)).
Proof.
  intros Hmodel Hw. eexists.
  unfold _set_fitted_model_and_model_type, call, bind_of, M_bind, bind, modify,
    get, put. simpl. rewrite Hmodel. simpl.
  rewrite (format_filled_template _ _ _ Hw). simpl. rewrite Hw. simpl.
  split; [reflexivity|]. split; reflexivity.
Qed.

(** ** [predict], [model_performance] and [summary] *)

(** C7. A successful [predict] sends the test data, and the one key it asks
    the server to remove is [self._parameters["training_frame"]], not the key
    it got for the test data. *)
Theorem predict_removes_training_key (srv : Server) (test_data : pyval)
    (s s' : state) (out : H2OFrame) :
  predict srv test_data s = (Ok out, s') ->
  exists (fr : H2OFrame) (test_data_key : string) (r : nat) (d : pydict)
         (stale : pyval) (url prediction_frame_key : string),
    test_data = VFrame fr /\
    srv_send_frame srv (trace s) fr = Some test_data_key /\
    params_at s r d /\ d !! "training_frame" = Some stale /\
    trace s' = trace s ++
      [EvSendFrame fr; EvPost url ∅; EvFrame prediction_frame_key; EvRemove stale].
Proof.
  unfold predict. intros H.
  destruct (negb (truthy test_data)); [discriminate|].
  inv_bind H key s1 H1.
  destruct test_data as [| | | | | |fr|]; try discriminate.
  unfold send_frame in H1. apply call_Ok in H1 as [Hkey ->].
  inv_bind H s0 s1 H1. apply get_Ok in H1 as [-> ->].
  inv_bind H model_key s1 H1. simpl in H1.
  destruct (_model_key s) as [mk|]; [|discriminate].
  apply ret_Ok in H1 as [-> ->].
  inv_bind H pkey s1 H1. apply call_Ok in H1 as [_ ->].
  inv_bind H meta s1 H1. apply call_Ok in H1 as [_ ->].
  inv_bind H stale s1 H1. unfold params_getitem in H1.
  inv_bind H1 rd s2 H2. destruct rd as [r d].
  apply the_parameters_Ok in H2 as [-> [Hr Hd]].
  destruct (d !! "training_frame") as [v|] eqn:Hv; [|discriminate].
  apply ret_Ok in H1 as [-> ->].
  inv_bind H u s1 H1. unfold h2o_remove in H1. apply call_Ok in H1 as [_ ->].
  apply ret_Ok in H as [_ ->].
  exists fr, key, r, d, v. eexists _, _.
  split; [done|]. split; [done|]. split; [by split|]. split; [done|].
  simpl. rewrite <- !app_assoc. reflexivity.
Qed.

(** C8. Before any fit has produced a model, [model_performance] raises the
    argument error, but [summary] raises an AttributeError. *)
Theorem summary_before_fit_raises_attribute_error
    (wrapper_model_performance : fitted -> pyval -> M pyval)
    (wrapper_summary : fitted -> M unit) (test_data : pyval) (s : state) :
  _fitted_model s = None ->
  model_performance wrapper_model_performance test_data s =
    (Raise (ValueError NoModelAvailable), s) /\
  summary wrapper_summary s = (Raise AttributeError, s).
Proof.
  intros Hnone. unfold model_performance, summary, bind_of, M_bind, bind, get.
  by rewrite Hnone.
Qed.

(** ** Indices and names *)

(** C9. Indices in [x] become the names at those positions, and so does an
    index [y] that is not zero; the index 0 for [y] is left as it is. *)
Theorem target_index_zero_not_converted :
  _indexed_columns_to_named_columns (VList [VInt 0; VInt 2]) (VInt 3) example_frame
    = Ok (VList [VStr "a"; VStr "c"], VStr "d") /\
  _indexed_columns_to_named_columns (VList [VInt 0; VInt 2]) (VInt 0) example_frame
    = Ok (VList [VStr "a"; VStr "c"], VInt 0).
Proof. split; reflexivity. Qed.

Lemma zero_target_unchanged (x x' y' : pyval) (dataset : H2OFrame) :
  _indexed_columns_to_named_columns x (VInt 0) dataset = Ok (x', y') ->
  y' = VInt 0.
Proof.
  unfold _indexed_columns_to_named_columns, bind_of, result_bind.
  destruct (getitem0 x) as [x0|]; [|discriminate].
  destruct (if isinstance_int x0 then _ else _); [|discriminate].
  simpl. congruence.
Qed.

Lemma map_result_Ok {A B} (f : A -> result B) (l : list A) (bs : list B) :
  map_result f l = Ok bs <-> Forall2 (fun a b => f a = Ok b) l bs.
Proof.
  revert bs. induction l as [|a l IH]; intros bs; simpl.
  - split; [intros [= <-]; constructor|]. intros H. by inversion H.
  - unfold bind_of, result_bind. split.
    + destruct (f a) as [b|] eqn:Hb; [|discriminate].
      destruct (map_result f l) as [bs'|]; [|discriminate].
      intros [= <-]. constructor; [done|]. by apply IH.
    + intros H. inversion H as [|a' b l' bs' Hb Hbs]; subst.
      rewrite Hb. apply IH in Hbs. by rewrite Hbs.
Qed.

Lemma map_result_Raise {A B} (f : A -> result B) (l : list A) (a : A) :
  a ∈ l -> (forall b, f a <> Ok b) -> forall bs, map_result f l <> Ok bs.
Proof.
  intros Hin Hf bs H%map_result_Ok.
  induction H as [|a' b l' bs' Hb _ IH]; [by apply elem_of_nil in Hin|].
  apply elem_of_cons in Hin as [->|Hin]; [by apply (Hf b)|by apply IH].
Qed.

(** C10. Only the first element of [x] decides: when it is a name the list
    comes back as it is, whatever follows; when it is an integer every
    element is used as a position in the column names, and a name among
    them makes the call raise. *)
Theorem index_resolution_looks_at_first_element :
  (forall (e : pyval) (rest : list pyval) (y x' y' : pyval) (dataset : H2OFrame),
     isinstance_int e = false ->
     _indexed_columns_to_named_columns (VList (e :: rest)) y dataset = Ok (x', y') ->
     x' = VList (e :: rest)) /\
  (forall (e : pyval) (rest : list pyval) (y x' y' : pyval) (dataset : H2OFrame),
     isinstance_int e = true ->
     _indexed_columns_to_named_columns (VList (e :: rest)) y dataset = Ok (x', y') ->
     exists cols : list string,
       x' = VList (VStr <$> cols) /\
       Forall2 (fun i c => list_subscript (names dataset) i = Ok c) (e :: rest) cols) /\
  (forall (e i : pyval) (rest : list pyval) (y : pyval) (dataset : H2OFrame),
     isinstance_int e = true -> i ∈ rest -> isinstance_int i = false ->
     exists err, _indexed_columns_to_named_columns (VList (e :: rest)) y dataset
                 = Raise err).
Proof.
  split; [|split].
  - intros e rest y x' y' dataset He.
    unfold _indexed_columns_to_named_columns. cbn [getitem0 bind_of result_bind].
    rewrite He. cbn [bind_of result_bind].
    destruct (if truthy y then _ else _); [|discriminate]. by intros [= <- _].
  - intros e rest y x' y' dataset He.
    unfold _indexed_columns_to_named_columns. cbn [getitem0 bind_of result_bind].
    rewrite He.
    destruct (map_result _ (e :: rest)) as [vs|] eqn:Hvs; [|discriminate].
    cbn [fmap result_fmap bind_of result_bind].
    destruct (if truthy y then _ else _); [|discriminate]. intros [= <- _].
    apply map_result_Ok in Hvs.
    assert (Hcols : exists cols, vs = VStr <$> cols /\
              Forall2 (fun i c => list_subscript (names dataset) i = Ok c)
                      (e :: rest) cols).
    { clear He. induction Hvs as [|i v l vs Hv _ IH].
      - by exists [].
      - destruct IH as (cols & -> & Hcols).
        destruct (list_subscript (names dataset) i) as [c|] eqn:Hc; [|discriminate].
        injection Hv as <-. exists (c :: cols). split; [done|]. by constructor. }
    destruct Hcols as (cols & -> & Hcols). eauto.
  - intros e i rest y dataset He Hin Hi.
    unfold _indexed_columns_to_named_columns. cbn [getitem0 bind_of result_bind].
    rewrite He.
    destruct (map_result _ (e :: rest)) as [vs|] eqn:Hvs.
    + exfalso. revert Hvs. apply (map_result_Raise _ _ i); [by right|].
      intros b. destruct i; try discriminate.
    + eauto.
Qed.

(** ** The first dispatch of a builder follows the category *)

Lemma append_length (a b : string) :
  String.length (a +:+ b) = (String.length a + String.length b)%nat.
Proof. induction a as [|c a IH]; simpl; [done|]. by rewrite IH. Qed.

Lemma append_inv_tail (a b suffix : string) :
  a +:+ suffix = b +:+ suffix -> a = b.
Proof.
  revert b. induction a as [|c a IH]; intros [|c' b]; simpl; intros H.
  - done.
  - apply (f_equal String.length) in H. simpl in H. rewrite !append_length in H.
    simpl in H. lia.
  - apply (f_equal String.length) in H. simpl in H. rewrite !append_length in H.
    simpl in H. lia.
  - injection H as -> H. f_equal. by apply IH.
Qed.

Lemma eqb_template (category k : string) :
  String.eqb ("H2O" +:+ category +:+ "Model") ("H2O" +:+ k +:+ "Model")
  = String.eqb category k.
Proof.
  destruct (String.eqb_spec category k) as [->|Hne].
  - apply String.eqb_refl.
  - apply String.eqb_neq. intros H. apply Hne.
    apply (inj (String.app "H2O")) in H. by apply append_inv_tail in H.
Qed.

Lemma format_template (category : string) :
  format "H2O{}Model" category = Formatted ("H2O" +:+ category +:+ "Model").
Proof. reflexivity. Qed.

Lemma wrapper_of_template (category : string) :
  wrapper_of ("H2O" +:+ category +:+ "Model") = category_wrapper category.
Proof.
  unfold wrapper_of, category_wrapper.
  change BINOMIAL with ("H2O" +:+ "Binomial" +:+ "Model").
  change MULTINOMIAL with ("H2O" +:+ "Multinomial" +:+ "Model").
  change CLUSTERING with ("H2O" +:+ "Clustering" +:+ "Model").
  change REGRESSION with ("H2O" +:+ "Regression" +:+ "Model").
  by rewrite !eqb_template.
Qed.

(** X9. On a builder that has never been fitted the wrapper is the one of
    the reported category, and any other category raises the unknown-model
    error. *)
Lemma first_dispatch_follows_category (srv : Server) (destination_key : string)
    (s : state) (model : model_json) :
  _model_type s = "H2O{}Model" ->
  srv_model srv (trace s) destination_key = Some model ->
  let category := mj_model_category model in
  match category_wrapper category with
  | Some w =>
      exists s',
        _set_fitted_model_and_model_type srv destination_key s = (Ok tt, s') /\
        _model_type s' = "H2O" +:+ category +:+ "Model" /\
        _fitted_model s' =
          Some (mkFitted w (mj_output model) (_algo s) (Some destination_key))
  | None =>
      exists s',
        _set_fitted_model_and_model_type srv destination_key s =
          (Raise (H2OUnknownModelError ("H2O" +:+ category +:+ "Model")), s') /\
        _model_type s' = "H2O" +:+ category +:+ "Model" /\
        _fitted_model s' = _fitted_model s
  end.
Proof.
  intros Htype Hmodel category.
  assert (Hrun : _set_fitted_model_and_model_type srv destination_key s =
    let s1 := set_model_type ("H2O" +:+ category +:+ "Model")
                (set_trace (trace s ++ [EvGet ("Models/" +:+ destination_key)])
                   (set_model_key (Some destination_key) s)) in
    match category_wrapper category with
    | Some w =>
        (Ok tt, set_fitted_model
                  (Some (mkFitted w (mj_output model) (_algo s)
                           (Some destination_key))) s1)
    | None => (Raise (H2OUnknownModelError ("H2O" +:+ category +:+ "Model")), s1)
    end).
  { unfold _set_fitted_model_and_model_type, call, bind_of, M_bind, bind, modify,
      get, put. simpl. rewrite Hmodel. simpl. rewrite Htype, format_template.
    simpl. fold category.
    change (String "H" (String "2" (String "O" (category +:+ "Model"))))
      with ("H2O" +:+ category +:+ "Model").
    rewrite wrapper_of_template. by destruct (category_wrapper category). }
  rewrite Hrun. cbn zeta.
  destruct (category_wrapper category); eexists; (split; [reflexivity|]); done.
Qed.

(** ** The theorems at work on the example builder *)

Lemma fit_leaves_parameters_mutated_witness :
  exists (r : nat) (snapshot final : pydict) (dataset : H2OFrame) (key : string),
    params_at (_update example_builder).2 r snapshot /\
    params_at example_fitted r final /\
    snapshot !! "training_frame" = Some (VFrame dataset) /\
    final !! "training_frame" = Some (VStr key) /\
    is_Some (final !! "ignored_columns") /\
    final <> snapshot.
Proof.
  apply (fit_leaves_parameters_mutated example_server (VList [VInt 0; VInt 2])
           (VStr "d") VNone example_builder example_fitted tt).
  vm_compute. reflexivity.
Defined.

Lemma fit_removes_temporary_frames_witness :
  exists (dataset : H2OFrame) (key : string) (body : pydict) (dest : string),
    attrs example_builder !! "training_frame" = Some (Data (VFrame dataset)) /\
    srv_send_frame example_server [] dataset = Some key /\
    exists fr vkey, VFrame example_validation = VFrame fr /\
      srv_send_frame example_server [EvSendFrame dataset] fr = Some vkey /\
      trace example_validated =
        [EvSendFrame dataset; EvSendFrame fr; EvGet "ModelBuilders/gbm";
         EvPost "ModelBuilders/gbm" body; EvGet ("Models/" +:+ dest);
         EvRemove (VStr key); EvRemove (VStr vkey)].
Proof.
  apply (fit_removes_temporary_frames example_server (VList [VInt 0; VInt 2])
           (VStr "d") (VFrame example_validation) example_builder
           example_validated tt).
  vm_compute. reflexivity.
Defined.

Lemma fit_rejects_supplied_features_witness :
  exists s',
    fit example_server (VList [VStr "a"]) VNone VNone example_builder
      = (Raise (ValueError MissingFeatures), s') /\
    trace s' = trace example_builder.
Proof.
  apply (fit_rejects_supplied_features example_server (VList [VStr "a"]) VNone
           VNone example_builder VNone); reflexivity.
Defined.

Lemma fold_params_matches_spec_witness :
  exists (body : pydict) (s' : state),
    _fold_default_params_with_user_params example_server example_fitted
      = (Ok body, s') /\
    exists (raw : list (string * pyval)) (r : nat) (user : pydict),
      srv_builder_parameters example_server (trace example_fitted) "gbm" = Some raw /\
      params_at example_fitted r user /\
      body = folded_body (dict_of_pairs raw) user /\
      (forall k, dict_of_pairs raw !! k = None -> body !! k = None) /\
      (forall k, body !! k <> Some VNone).
Proof.
  eexists _, _. split; [vm_compute; reflexivity|].
  eapply (fold_params_matches_spec example_server example_fitted).
  vm_compute. reflexivity.
Defined.

Lemma dispatch_keeps_first_category_witness :
  srv_model example_server (trace example_fitted) "model_1"
    = Some (mkModelJson "Regression" 7) /\
  exists s',
    _set_fitted_model_and_model_type example_server "model_1" example_fitted
      = (Ok tt, s') /\
    _model_type s' = _model_type example_fitted /\
    _fitted_model s' = Some (mkFitted H2OBinomialModel 7 "gbm" (Some "model_1")).
Proof.
  split; [reflexivity|].
  apply (dispatch_keeps_first_category example_server "model_1" example_fitted
           (mkModelJson "Regression" 7) H2OBinomialModel); vm_compute; reflexivity.
Defined.

Lemma predict_removes_training_key_witness :
  exists (fr : H2OFrame) (test_data_key : string) (r : nat) (d : pydict)
         (stale : pyval) (url prediction_frame_key : string),
    VFrame example_validation = VFrame fr /\
    srv_send_frame example_server (trace example_fitted) fr = Some test_data_key /\
    params_at example_fitted r d /\ d !! "training_frame" = Some stale /\
    trace example_predicted = trace example_fitted ++
      [EvSendFrame fr; EvPost url ∅; EvFrame prediction_frame_key; EvRemove stale].
Proof.
  eapply (predict_removes_training_key example_server (VFrame example_validation)
            example_fitted example_predicted).
  vm_compute. reflexivity.
Defined.

Lemma summary_before_fit_raises_attribute_error_witness :
  model_performance example_model_performance VNone example_builder
    = (Raise (ValueError NoModelAvailable), example_builder) /\
  summary example_summary example_builder = (Raise AttributeError, example_builder).
Proof.
  apply (summary_before_fit_raises_attribute_error example_model_performance
           example_summary VNone example_builder).
  reflexivity.
Defined.

Lemma index_resolution_looks_at_first_element_witness :
  exists err,
    _indexed_columns_to_named_columns (VList [VInt 0; VStr "b"]) VNone example_frame
      = Raise err.
Proof.
  apply (proj2 (proj2 index_resolution_looks_at_first_element)
           (VInt 0) (VStr "b") [VStr "b"] VNone example_frame).
  - reflexivity.
  - left.
  - reflexivity.
Defined.

(** ** The example, run *)

(** [fit(x=[0, 2], y="d")] on the example builder: what the builder's
    dictionary holds afterwards, and the calls made. *)
Example example_fit_parameters :
  exists d, params_at example_fitted 0 d /\
    map_to_list d =
      [("max_depth", VInt 9223372036854775807); ("y", VNone);
       ("ignored_columns", VList [VStr "b"]); ("ntrees", VInt 20);
       ("response_column", VStr "d"); ("training_frame", VStr "tmp_0");
       ("x", VNone)].
Proof. eexists. split; [split; vm_compute; reflexivity|]. vm_compute. reflexivity. Qed.

(** The key [predict] got for the test data is ["tmp_1"]; the key it asks to
    remove is ["tmp_0"], which [fit] had removed before. *)
Example example_predict_trace :
  srv_send_frame example_server (trace example_fitted) example_validation
    = Some "tmp_1" /\
  trace example_predicted = trace example_fitted ++
    [EvSendFrame example_validation;
     EvPost "Predictions/models/model_0/frames/tmp_1" ∅;
     EvFrame "pred_0"; EvRemove (VStr "tmp_0")].
Proof. split; vm_compute; reflexivity. Qed.

(** A second [fit] on the fitted builder: the server builds a regression,
    the builder wraps it as a binomial model. *)
Example example_second_fit :
  let r := fit example_server (VList [VInt 0; VInt 2]) (VStr "d") VNone example_fitted in
  r.1 = Ok tt /\
  srv_model example_server [] "model_1" = Some (mkModelJson "Regression" 7) /\
  _fitted_model r.2 = Some (mkFitted H2OBinomialModel 7 "gbm" (Some "model_1")).
Proof. cbn zeta. repeat split; vm_compute; reflexivity. Qed.

(** * More about the methods *)

(** ** What no method touches *)

Lemma frame_refl (allow : event -> bool) (s : state) : frame allow s s.
Proof.
  repeat split; try done. exists []. by rewrite app_nil_r.
Qed.

Lemma frame_trans (allow : event -> bool) (s s1 s2 : state) :
  frame allow s s1 -> frame allow s1 s2 -> frame allow s s2.
Proof.
  intros (Ha & Hg & Hp & Hl & Hh & evs & Ht & Hall)
         (Ha' & Hg' & Hp' & Hl' & Hh' & evs' & Ht' & Hall').
  repeat split; try congruence.
  - intros r Hr. rewrite Hh' by congruence. by apply Hh.
  - exists (evs ++ evs'). split.
    + by rewrite Ht', Ht, app_assoc.
    + by rewrite forallb_app, Hall, Hall'.
Qed.

Lemma frame_weaken (allow : event -> bool) (s s' : state) :
  frame allow s s' -> frame any_event s s'.
Proof.
  intros (Ha & Hg & Hp & Hl & Hh & evs & Ht & _). repeat split; try done.
  exists evs. split; [done|]. by apply forallb_forall.
Qed.

Lemma bind_cases {A B} (m : M A) (f : A -> M B) (s : state) (o : result B) (s' : state) :
  bind_of m f s = (o, s') ->
  (exists e, m s = (Raise e, s') /\ o = Raise e) \/
  (exists a s1, m s = (Ok a, s1) /\ f a s1 = (o, s')).
Proof.
  unfold bind_of, M_bind, bind. destruct (m s) as [[a|e] s1]; [eauto|].
  intros [= <- <-]. eauto.
Qed.

Section Keeps.

Context (allow : event -> bool) (p : option nat).

Lemma keeps_ret {A} (a : A) : keeps allow p (ret a).
Proof. intros s o s' _ [= <- <-]. apply frame_refl. Qed.

Lemma keeps_raise {A} (e : exn) : keeps allow p (raise e : M A).
Proof. intros s o s' _ [= <- <-]. apply frame_refl. Qed.

Lemma keeps_get : keeps allow p get.
Proof. intros s o s' _ [= <- <-]. apply frame_refl. Qed.

Lemma keeps_lift {A} (r : result A) : keeps allow p (lift r).
Proof. destruct r; [apply keeps_ret|apply keeps_raise]. Qed.

Lemma keeps_bind {A B} (m : M A) (f : A -> M B) :
  keeps allow p m -> (forall a, keeps allow p (f a)) -> keeps allow p (bind_of m f).
Proof.
  intros Hm Hf s o s' Hp [(e & H & ->)|(a & s1 & H & H')]%bind_cases.
  - by apply (Hm _ _ _ Hp H).
  - pose proof (Hm _ _ _ Hp H) as F. apply (frame_trans _ _ _ _ F).
    apply (Hf a _ _ _) in H'; [done|]. destruct F as (_ & _ & -> & _). done.
Qed.

Lemma keeps_when (b : bool) (m : M unit) : keeps allow p m -> keeps allow p (when b m).
Proof. destruct b; [done|]. intros _. apply keeps_ret. Qed.

Lemma keeps_modify (f : state -> state) :
  (forall s, _parameters s = p -> frame allow s (f s)) -> keeps allow p (modify f).
Proof. intros Hf s o s' Hp [= <- <-]. by apply Hf. Qed.

Lemma keeps_the_parameters : keeps allow p the_parameters.
Proof.
  unfold the_parameters. apply keeps_bind; [apply keeps_get|]. intros s.
  destruct (_parameters s); [|apply keeps_raise].
  destruct (heap s !! n); [apply keeps_ret|apply keeps_raise].
Qed.

Lemma keeps_params_getitem (k : string) : keeps allow p (params_getitem k).
Proof.
  unfold params_getitem. apply keeps_bind; [apply keeps_the_parameters|].
  intros [r d]. destruct (d !! k); [apply keeps_ret|apply keeps_raise].
Qed.

Lemma keeps_params_contains (k : string) : keeps allow p (params_contains k).
Proof.
  unfold params_contains. apply keeps_bind; [apply keeps_the_parameters|].
  intros [r d]. apply keeps_ret.
Qed.

Lemma keeps_params_setitem (k : string) (v : pyval) : keeps allow p (params_setitem k v).
Proof.
  unfold params_setitem. intros s o s' Hp
    [(e & H & ->)|([r d] & s1 & H & H')]%bind_cases.
  - unfold the_parameters, bind_of, M_bind, bind, get, ret, raise in H.
    destruct (_parameters s); [destruct (heap s !! n)|];
      try discriminate; injection H as ? ?; subst; apply frame_refl.
  - apply the_parameters_Ok in H as [-> [Hr Hd]].
    unfold modify in H'. injection H' as <- <-.
    repeat split; simpl; try done.
    + apply length_insert.
    + intros r' Hr'. apply list_lookup_insert_ne. congruence.
    + exists []. by rewrite app_nil_r.
Qed.

Lemma keeps_call {A} (ev : event) (answer : list event -> option A) :
  allow ev = true -> keeps allow p (call ev answer).
Proof.
  intros Hev s o s' _ H.
  unfold call, bind_of, M_bind, bind, get, put, ret, raise in H.
  assert (s' = set_trace (trace s ++ [ev]) s) as ->.
  { destruct (answer (trace s)); by injection H as <- <-. }
  repeat split; try done. exists [ev]. split; [done|]. simpl. by rewrite Hev.
Qed.

End Keeps.

Ltac keeps_auto :=
  repeat first
    [ apply keeps_ret | apply keeps_raise | apply keeps_get | apply keeps_lift
    | apply keeps_params_getitem | apply keeps_params_contains
    | apply keeps_params_setitem | apply keeps_the_parameters
    | apply keeps_when
    | apply keeps_call; reflexivity
    | apply keeps_bind; [|intros ?]
    | match goal with |- keeps _ _ (match ?x with _ => _ end) => destruct x end
    | match goal with |- keeps _ _ (if ?b then _ else _) => destruct b end ].

Lemma frame_set_field (allow : event -> bool) (s s' : state) :
  attrs s' = attrs s -> _algo s' = _algo s -> _parameters s' = _parameters s ->
  heap s' = heap s -> trace s' = trace s -> frame allow s s'.
Proof.
  intros Ha Hg Hp Hh Ht. unfold frame. rewrite Hh.
  split; [done|]. split; [done|]. split; [done|]. split; [done|]. split; [done|].
  exists []. by rewrite app_nil_r.
Qed.

Lemma keeps_weaken (allow : event -> bool) (p : option nat) {A} (m : M A) :
  keeps allow p m -> keeps any_event p m.
Proof. intros H s o s' Hp Hm. eapply frame_weaken, H; eauto. Qed.

Section QuietSteps.

Context (srv : Server) (p : option nat).

Lemma keeps__set_and_check_x_y (x y : pyval) :
  keeps no_remove p (_set_and_check_x_y x y).
Proof. unfold _set_and_check_x_y. keeps_auto. Qed.

Lemma keeps__check_training_frame (x : pyval) :
  keeps no_remove p (_check_training_frame x).
Proof. unfold _check_training_frame, get_training_frame. keeps_auto. Qed.

Lemma keeps__set_ignored_columns (x y : pyval) (dataset : H2OFrame) :
  keeps no_remove p (_set_ignored_columns x y dataset).
Proof. unfold _set_ignored_columns. keeps_auto. Qed.

Lemma keeps__set_training_frame (dataset : H2OFrame) :
  keeps no_remove p (_set_training_frame srv dataset).
Proof. unfold _set_training_frame, send_frame. keeps_auto. Qed.

Lemma keeps__set_validation_frame (validation_frame : pyval) :
  keeps no_remove p (_set_validation_frame srv validation_frame).
Proof. unfold _set_validation_frame, send_frame. keeps_auto. Qed.

Lemma keeps__fold_default_params_with_user_params :
  keeps no_remove p (_fold_default_params_with_user_params srv).
Proof. unfold _fold_default_params_with_user_params. keeps_auto. Qed.

Lemma keeps__set_fitted_model_and_model_type (destination_key : string) :
  keeps no_remove p (_set_fitted_model_and_model_type srv destination_key).
Proof.
  unfold _set_fitted_model_and_model_type.
  repeat first
    [ apply keeps_modify; intros; by apply frame_set_field
    | apply keeps_ret | apply keeps_raise | apply keeps_get
    | apply keeps_call; reflexivity
    | apply keeps_bind; [|intros ?]
    | match goal with |- keeps _ _ (match ?x with _ => _ end) => destruct x end ].
Qed.

Lemma keeps_h2o_remove (key : pyval) : keeps any_event p (h2o_remove srv key).
Proof. unfold h2o_remove. by apply keeps_call. Qed.

End QuietSteps.

Lemma quiet_failure_bind (allow : event -> bool) (p : option nat) {A B}
    (m : M A) (f : A -> M B) :
  keeps allow p m -> (forall a, quiet_failure allow p (f a)) ->
  quiet_failure allow p (bind_of m f).
Proof.
  intros Hm Hf s e s' Hp [(e' & H & [= ->])|(a & s1 & H & H')]%bind_cases Hne.
  - by apply (Hm _ _ _ Hp H).
  - pose proof (Hm _ _ _ Hp H) as F. apply (frame_trans _ _ _ _ F).
    apply (Hf a _ _ _) in H'; [done| |done]. destruct F as (_ & _ & -> & _). done.
Qed.

Lemma call_Raise {A} (ev : event) (answer : list event -> option A)
    (s s' : state) (e : exn) :
  call ev answer s = (Raise e, s') -> e = ServerError.
Proof.
  unfold call, bind_of, M_bind, bind, get, put, ret, raise.
  destruct (answer (trace s)); [discriminate|]. by intros [= <- _].
Qed.

Lemma params_contains_run (k : string) (s : state) (r : nat) (d : pydict) :
  params_at s r d ->
  params_contains k s = (Ok (bool_decide (is_Some (d !! k))), s).
Proof.
  intros [Hr Hd]. unfold params_contains, the_parameters, bind_of, M_bind, bind, get.
  by rewrite Hr, Hd.
Qed.

Lemma params_getitem_Ok_at (k : string) (s s' : state) (v : pyval) :
  params_getitem k s = (Ok v, s') ->
  s' = s /\ exists r d, params_at s r d /\ d !! k = Some v.
Proof.
  unfold params_getitem. intros ([r d] & s1 & H1 & H)%bind_Ok.
  apply the_parameters_Ok in H1 as [-> Hat].
  destruct (d !! k) eqn:Hk; [|discriminate]. apply ret_Ok in H as [-> ->]. eauto.
Qed.

(** The removals at the end of [fit] either go through, or fail with a
    server error, or have not begun. *)
Lemma cleanup_quiet_failure (srv : Server) (saved_parameters p : option nat) :
  quiet_failure no_remove p
    (let* training_key := params_getitem "training_frame" in
     h2o_remove srv training_key;;
     let* has_validation := params_contains "validation_frame" in
     (if has_validation
      then let* validation_key := params_getitem "validation_frame" in
           when (negb (is_None validation_key)) (h2o_remove srv validation_key)
      else ret tt);;
     modify (set_parameters saved_parameters)).
Proof.
  intros s e s' Hp H Hne.
  apply bind_cases in H as [(e' & H & [= ->])|(tk & s1 & H & H')].
  { by apply (keeps_params_getitem _ _ _ _ _ _ Hp H). }
  apply params_getitem_Ok_at in H as (-> & r & d & Hat & Htk).
  apply bind_cases in H' as [(e' & H & [= ->])|(u & s1 & H & H')].
  { unfold h2o_remove in H. by apply call_Raise in H. }
  unfold h2o_remove in H. apply call_Ok in H as [_ ->].
  assert (Hat1 : params_at (set_trace (trace s ++ [EvRemove tk]) s) r d) by apply Hat.
  exfalso.
  unfold bind_of at 1, M_bind, bind in H'.
  rewrite (params_contains_run _ _ _ _ Hat1) in H'.
  destruct (d !! "validation_frame") as [v|] eqn:Hv.
  - rewrite bool_decide_true in H' by eauto.
    unfold bind_of at 1 2, M_bind, bind in H'.
    rewrite (params_getitem_run _ _ _ _ Hat1), Hv in H'.
    destruct (is_None v); simpl in H'; [discriminate|].
    unfold h2o_remove in H'.
    destruct (call _ _ _) as [[u'|e'] s2] eqn:Hcall; [discriminate|].
    apply call_Raise in Hcall. congruence.
  - rewrite bool_decide_false in H' by (by intros [? ?]). discriminate.
Qed.

(** What is left of [fit] once [_update] has run keeps the frame. *)
Lemma fit_after_update (srv : Server) (x y validation_frame : pyval) (s : state) :
  exists (snapshot : pydict),
    let r := length (heap s) in
    let s0 := set_parameters (Some r) (set_heap (heap s ++ [snapshot]) s) in
    frame any_event s0 (fit srv x y validation_frame s).2 /\
    (forall e, (fit srv x y validation_frame s).1 = Raise e -> e <> ServerError ->
               frame no_remove s0 (fit srv x y validation_frame s).2).
Proof.
  destruct (_update_Ok s) as (snapshot & Hrun & _ & _). cbn zeta in *.
  exists snapshot. set (r := length (heap s)) in *.
  set (s0 := set_parameters (Some r) (set_heap (heap s ++ [snapshot]) s)) in *.
  unfold fit. rewrite (bind_run _ _ _ _ _ Hrun).
  match goal with |- context [?K s0] =>
    match type of K with M unit =>
      assert (HK : keeps any_event (Some r) K /\ quiet_failure no_remove (Some r) K)
    end end.
  { split.
    - repeat first
        [ apply keeps_modify; intros; by apply frame_set_field
        | apply (keeps_weaken no_remove), keeps__set_and_check_x_y
        | apply (keeps_weaken no_remove), keeps__check_training_frame
        | apply (keeps_weaken no_remove), keeps__set_ignored_columns
        | apply (keeps_weaken no_remove), keeps__set_training_frame
        | apply (keeps_weaken no_remove), keeps__set_validation_frame
        | apply (keeps_weaken no_remove), keeps__fold_default_params_with_user_params
        | apply (keeps_weaken no_remove), keeps__set_fitted_model_and_model_type
        | apply keeps_h2o_remove
        | apply keeps_when
        | apply keeps_params_setitem | apply keeps_params_getitem
        | apply keeps_params_contains | apply keeps_get | apply keeps_lift
        | apply keeps_ret
        | apply keeps_call; reflexivity
        | apply keeps_bind; [|intros ?]
        | match goal with |- keeps _ _ (match ?x with _ => _ end) => destruct x end
        | match goal with |- keeps _ _ (if ?b then _ else _) => destruct b end ].
    - repeat first
        [ apply cleanup_quiet_failure
        | apply quiet_failure_bind;
            [ first [ apply keeps__set_and_check_x_y
                    | apply keeps__check_training_frame
                    | apply keeps__set_ignored_columns
                    | apply keeps__set_training_frame
                    | apply keeps__set_validation_frame
                    | apply keeps__fold_default_params_with_user_params
                    | apply keeps__set_fitted_model_and_model_type
                    | apply keeps_when; apply keeps_params_setitem
                    | apply keeps_get | apply keeps_lift
                    | apply keeps_call; reflexivity ]
            | intros ? ]
        | match goal with
          | |- quiet_failure _ _ (match ?x with _ => _ end) => destruct x
          end ]. }
  destruct HK as [HK HQ].
  match goal with |- context [?K s0] =>
    match type of K with M unit => destruct (K s0) as [o s'] eqn:E end end.
  simpl. split.
  - by apply (HK s0 o s').
  - intros e -> Hne. by apply (HQ s0 e s').
Qed.

(** X13. Whether it returns or raises, [fit] leaves the builder's attributes
    and algorithm as they were, makes the builder refer to one new
    dictionary, leaves every dictionary that existed before as it was, and
    only adds to the calls made. *)
Theorem fit_touches_only_its_own_dictionary (srv : Server)
    (x y validation_frame : pyval) (s : state) :
  let s' := (fit srv x y validation_frame s).2 in
  attrs s' = attrs s /\ _algo s' = _algo s /\
  _parameters s' = Some (length (heap s)) /\
  length (heap s') = S (length (heap s)) /\
  (forall r, (r < length (heap s))%nat -> heap s' !! r = heap s !! r) /\
  exists evs, trace s' = trace s ++ evs.
Proof.
  destruct (fit_after_update srv x y validation_frame s) as (snapshot & F & _).
  cbn zeta in *.
  destruct F as (Ha & Hg & Hp & Hl & Hh & evs & Ht & _).
  cbn [attrs _algo _parameters heap trace set_parameters set_heap] in *.
  split; [done|]. split; [done|]. split; [done|]. split.
  { rewrite Hl, length_app. cbn [length]. lia. }
  split; [|by exists evs].
  intros r Hr. rewrite Hh by (intros [= Heq]; lia).
  by rewrite lookup_app_l.
Qed.

(** X14. When [fit] raises anything but a server error, it has asked for no
    removal: whatever frame it had sent by then stays on the server. *)
Theorem fit_failure_removes_nothing (srv : Server) (x y validation_frame : pyval)
    (s s' : state) (e : exn) :
  fit srv x y validation_frame s = (Raise e, s') -> e <> ServerError ->
  exists evs, trace s' = trace s ++ evs /\ forallb no_remove evs = true.
Proof.
  intros H Hne.
  destruct (fit_after_update srv x y validation_frame s) as (snapshot & _ & Q).
  cbn zeta in *. rewrite H in Q. simpl in Q.
  destruct (Q e eq_refl Hne) as (_ & _ & _ & _ & _ & evs & Ht & Hall).
  by exists evs.
Qed.

Lemma _update_ignores_parameters (p : option nat) (s : state) :
  _update (set_parameters p s) = _update s.
Proof. by rewrite !_update_run. Qed.

(** X15. The [parameters] given to the constructor play no part in [fit]:
    two builders that differ in them only behave alike. *)
Theorem fit_ignores_constructor_parameters (srv : Server)
    (others : gmap string attr) (parameters parameters' : option nat)
    (algo : string) (training_frame : pyval) (h : list pydict)
    (x y validation_frame : pyval) :
  fit srv x y validation_frame (__init__ others parameters algo training_frame h) =
  fit srv x y validation_frame (__init__ others parameters' algo training_frame h).
Proof.
  unfold fit, bind_of at 1 3, M_bind, bind.
  change (__init__ others parameters algo training_frame h)
    with (set_parameters parameters
            (__init__ others parameters' algo training_frame h)).
  by rewrite _update_ignores_parameters.
Qed.

(** ** Ignored columns *)

Lemma py_eq_str_true (c : string) (v : pyval) : py_eq_str c v = true <-> v = VStr c.
Proof.
  destruct v; simpl; try (split; [discriminate|congruence]).
  rewrite String.eqb_eq. split; congruence.
Qed.

Lemma existsb_py_eq_str (c : string) (l : list pyval) :
  existsb (py_eq_str c) l = true <-> VStr c ∈ l.
Proof.
  rewrite existsb_exists. split.
  - intros (v & Hin & ->%py_eq_str_true). by apply list_elem_of_In.
  - intros Hin. exists (VStr c). split; [by apply list_elem_of_In|].
    by apply py_eq_str_true.
Qed.

(** X1. With the features given as a list, the ignored columns are, in the
    order of the dataset, exactly its columns that are neither among the
    features nor the target; computing them never raises. *)
Theorem ignored_columns_of_feature_list (cols : list string) (l : list pyval)
    (y : pyval) :
  exists ign : list string,
    ignored_columns cols (VList l) y = Ok ign /\
    sublist ign cols /\
    forall c, c ∈ ign <-> c ∈ cols /\ (VStr c ∉ l) /\ y <> VStr c.
Proof.
  induction cols as [|c0 cols (ign & Hign & Hsub & Hin)].
  - exists []. split; [done|]. split; [done|]. intros c.
    split; [intros Hc; by apply elem_of_nil in Hc|].
    intros [Hc _]. by apply elem_of_nil in Hc.
  - cbn [ignored_columns py_in bind_of result_bind]. rewrite Hign.
    destruct (existsb (py_eq_str c0) l) eqn:Hx; cbn [negb andb].
    + exists ign. split; [done|]. split; [by apply sublist_cons|].
      intros c. rewrite Hin, elem_of_cons. split; [tauto|].
      intros ([->|Hc] & Hl & Hy); [|done].
      apply existsb_py_eq_str in Hx. done.
    + destruct (py_eq_str c0 y) eqn:Hy; cbn [negb].
      * exists ign. split; [done|]. split; [by apply sublist_cons|].
        intros c. rewrite Hin, elem_of_cons. split; [tauto|].
        intros ([->|Hc] & Hl & Hy'); [|done].
        apply py_eq_str_true in Hy. done.
      * exists (c0 :: ign). split; [done|]. split; [by apply sublist_skip|].
        intros c. rewrite !elem_of_cons, Hin. split.
        -- intros [->|?]; [|tauto]. split; [by left|]. split.
           ++ intros Hl%existsb_py_eq_str. congruence.
           ++ intros Hy'%py_eq_str_true. congruence.
        -- intros ([->|?] & ? & ?); [by left|]. right. tauto.
Qed.

Lemma prefix_append (c rest : string) : String.prefix c (c +:+ rest) = true.
Proof.
  induction c as [|a c IH]; simpl; [by destruct rest|].
  by destruct (ascii_dec a a).
Qed.

Lemma is_substring_prefix (c rest : string) : is_substring c (c +:+ rest) = true.
Proof.
  unfold is_substring.
  destruct (c +:+ rest) as [|a t] eqn:E.
  - destruct c; [done|discriminate].
  - cbn [String.index]. rewrite <- E, prefix_append. done.
Qed.

Lemma ignored_columns_elem (cols : list string) (x y : pyval) (ign : list string)
    (c : string) :
  ignored_columns cols x y = Ok ign -> c ∈ ign ->
  c ∈ cols /\ py_in c x = Ok false.
Proof.
  revert ign. induction cols as [|c0 cols IH]; intros ign; simpl.
  - intros [= <-] Hc. by apply elem_of_nil in Hc.
  - unfold bind_of, result_bind.
    destruct (py_in c0 x) as [inx|] eqn:Hx; [|discriminate].
    destruct (ignored_columns cols x y) as [rest|]; [|discriminate].
    intros [= <-] Hc.
    destruct inx; simpl in Hc.
    + destruct (IH _ eq_refl Hc). split; [by right|done].
    + destruct (py_eq_str c0 y); simpl in Hc.
      * destruct (IH _ eq_refl Hc). split; [by right|done].
      * apply elem_of_cons in Hc as [->|Hc]; [split; [by left|done]|].
        destruct (IH _ eq_refl Hc). split; [by right|done].
Qed.

(** X2. With the features given as one string, a column whose name begins
    that string is taken for a feature: it is never among the ignored
    columns, although it was not asked for. *)
Theorem string_features_hide_prefix_columns (cols : list string)
    (c rest : string) (y : pyval) (ign : list string) :
  ignored_columns cols (VStr (c +:+ rest)) y = Ok ign -> c ∉ ign.
Proof.
  intros H Hc. destruct (ignored_columns_elem _ _ _ _ _ H Hc) as [_ Hin].
  simpl in Hin. rewrite is_substring_prefix in Hin. discriminate.
Qed.

(** ** Resolution of indices, again *)

(** X12. Resolving indices is idempotent: what
    [_indexed_columns_to_named_columns] returns, it returns again when
    given its own result. *)
Theorem resolution_is_idempotent (x y x' y' : pyval) (dataset : H2OFrame) :
  _indexed_columns_to_named_columns x y dataset = Ok (x', y') ->
  _indexed_columns_to_named_columns x' y' dataset = Ok (x', y').
Proof.
  unfold _indexed_columns_to_named_columns, bind_of, result_bind.
  destruct (getitem0 x) as [x0|] eqn:Hx0; [|discriminate].
  assert (Hx : forall x1,
    (if isinstance_int x0
     then match x with
          | VList l => VList <$> map_result
                         (fun i => VStr <$> list_subscript (names dataset) i) l
          | _ => Raise TypeError
          end
     else Ok x) = Ok x1 ->
    exists x0', getitem0 x1 = Ok x0' /\ isinstance_int x0' = false).
  { intros x1. destruct (isinstance_int x0) eqn:Hint.
    - destruct x as [| | | | |l| |]; try discriminate.
      destruct l as [|e l]; [discriminate|]. simpl.
      unfold bind_of, result_bind.
      destruct (list_subscript (names dataset) e) as [c|]; [|discriminate]. simpl.
      destruct (map_result _ l) as [vs|]; [|discriminate]. simpl.
      intros [= <-]. by exists (VStr c).
    - intros [= <-]. eauto. }
  destruct (if isinstance_int x0 then _ else _) as [x1|] eqn:Hx1; [|discriminate].
  destruct (Hx x1 eq_refl) as (x0' & Hg & Hi). clear Hx.
  destruct (truthy y) eqn:Hy.
  - destruct (isinstance_int y) eqn:Hint.
    + destruct (list_subscript (names dataset) y) as [c|]; [|discriminate]. simpl.
      intros [= <- <-]. rewrite Hg, Hi. by destruct (truthy (VStr c)).
    + intros [= <- <-]. by rewrite Hg, Hi, Hy, Hint.
  - intros [= <- <-]. by rewrite Hg, Hi, Hy.
Qed.

(** ** Features, target and frames *)

Lemma params_setitem_run (k : string) (v : pyval) (s : state) (r : nat) (d : pydict) :
  params_at s r d ->
  params_setitem k v s = (Ok tt, set_heap (<[r := <[k := v]> d]> (heap s)) s).
Proof.
  intros [Hr Hd]. unfold params_setitem, the_parameters, bind_of, M_bind, bind, get.
  by rewrite Hr, Hd.
Qed.

Lemma params_at_set (s : state) (r : nat) (d d' : pydict) :
  params_at s r d -> params_at (set_heap (<[r := d']> (heap s)) s) r d'.
Proof.
  intros [Hr Hd]. split; [done|]. simpl.
  apply list_lookup_insert_eq. by apply lookup_lt_Some in Hd.
Qed.

(** X3. With features and target passed to [fit], a builder without a
    training frame makes [fit] raise the missing-frame error, and one whose
    training frame is not an H2OFrame the argument error; in both cases no
    call has been made to the server. *)
Theorem fit_needs_a_training_frame (srv : Server) (x y validation_frame : pyval)
    (s : state) (training_frame : pyval) :
  truthy x = true -> truthy y = true ->
  attrs s !! "training_frame" = Some (Data training_frame) ->
  isinstance_H2OFrame training_frame = false ->
  exists s',
    fit srv x y validation_frame s =
      (Raise (if truthy training_frame then ValueError TrainingNotAFrame
              else H2OMissingFrameError), s') /\
    trace s' = trace s.
Proof.
  intros Hx Hy Htf Hnot.
  destruct (_update_Ok s) as (snapshot & Hrun & _ & _). cbn zeta in *.
  unfold fit. rewrite (bind_run _ _ _ _ _ Hrun).
  unfold _set_and_check_x_y. rewrite Hx, Hy. cbn [negb orb].
  unfold _check_training_frame, get_training_frame, bind_of, M_bind, bind, get, ret.
  cbn [attrs set_parameters set_heap]. rewrite Htf.
  destruct (truthy training_frame); cbn [negb].
  - destruct training_frame; try discriminate; eexists; split; reflexivity.
  - eexists; split; reflexivity.
Qed.

(** X4. What [_set_and_check_x_y] returns: the features are never empty;
    features and target are the ones passed in when those are given, and
    the stored ones otherwise (no target when none is stored); no call is
    made. *)
Theorem features_and_target_fall_back (x y x' y' : pyval) (s s' : state) :
  _set_and_check_x_y x y s = (Ok (x', y'), s') ->
  truthy x' = true /\ trace s' = trace s /\
  (truthy x = true -> x' = x) /\ (truthy y = true -> y' = y) /\
  (truthy x = false -> exists r d, params_at s r d /\ d !! "x" = Some x') /\
  (truthy y = false ->
     exists r d, params_at s r d /\ y' = default VNone (d !! "y")).
Proof.
  unfold _set_and_check_x_y. intros H.
  destruct (negb (truthy x) || negb (truthy y)) eqn:Hcond.
  - inv_bind H stored_x s1 H1.
    apply params_getitem_Ok_at in H1 as (-> & r & d & Hat & Hstored).
    destruct (truthy stored_x) eqn:Hst; [|discriminate]. cbn [negb] in H.
    inv_bind H u1 s1 H2. pose proof (when_setitem_Ok _ _ _ _ _ _ _ _ H2 Hat) as P1.
    inv_bind H u2 s2 H3.
    pose proof (when_setitem_Ok _ _ _ _ _ _ _ _ H3 (proj1 P1)) as P2.
    inv_bind H ret_x s3 H4.
    destruct (params_getitem_Ok _ _ _ _ _ _ H4 (proj1 P2)) as [-> Hret_x].
    inv_bind H has_y s3 H5.
    destruct (params_contains_Ok _ _ _ _ _ _ H5 (proj1 P2)) as [-> ->].
    inv_bind H ret_y s3 H6.
    assert (Hy' : s3 = s2 /\
      ret_y = default VNone
        ((if truthy y then <["y":=y]> (if truthy x then <["x":=x]> d else d)
          else if truthy x then <["x":=x]> d else d) !! "y")).
    { destruct (_ !! "y") as [v|] eqn:Hv.
      - rewrite bool_decide_true in H6 by eauto.
        destruct (params_getitem_Ok _ _ _ _ _ _ H6 (proj1 P2)) as [-> Hv'].
        rewrite Hv in Hv'. by injection Hv' as ->.
      - rewrite bool_decide_false in H6 by (by intros [? ?]).
        by apply ret_Ok in H6 as [-> ->]. }
    destruct Hy' as [-> Hret_y]. apply ret_Ok in H as [[= <- <-] ->].
    pose proof (post_trans _ _ _ _ _ _ _ _ P1 P2) as (_ & _ & _ & Ht).
    rewrite app_nil_r in Ht. clear H2 H3 H4 H5 H6 P1 P2.
    destruct (truthy x) eqn:Hx, (truthy y) eqn:Hy; try discriminate.
    + rewrite lookup_insert_eq in Hret_x. injection Hret_x as <-.
      rewrite lookup_insert_ne in Hret_y by done.
      repeat split; try done. intros _. eauto.
    + rewrite lookup_insert_ne in Hret_x by done.
      rewrite lookup_insert_eq in Hret_y.
      assert (x' = stored_x) as -> by congruence.
      repeat split; try done. intros _. eauto.
    + assert (x' = stored_x) as -> by congruence.
      repeat split; try done; intros _; eauto.
  - apply ret_Ok in H as [[= <- <-] ->].
    destruct (truthy x'), (truthy y'); try discriminate. by repeat split.
Qed.

(** X5. A validation input passed to [fit] that is not an H2OFrame makes
    [_set_validation_frame] raise the argument error before any call to the
    server, but not before it has been stored in the builder's
    dictionary. *)
Theorem validation_must_be_a_frame (srv : Server) (validation_frame : pyval)
    (s : state) (r : nat) (d : pydict) :
  params_at s r d -> truthy validation_frame = true ->
  isinstance_H2OFrame validation_frame = false ->
  exists s',
    _set_validation_frame srv validation_frame s =
      (Raise (ValueError (ValidationNotAFrame true)), s') /\
    trace s' = trace s /\
    params_at s' r (<["validation_frame" := validation_frame]> d).
Proof.
  intros Hat Hv Hnot.
  pose proof (params_at_set _ _ _ (<["validation_frame" := validation_frame]> d) Hat)
    as Hat'.
  exists (set_heap (<[r := <["validation_frame" := validation_frame]> d]> (heap s)) s).
  split; [|by split].
  unfold _set_validation_frame. rewrite Hv.
  unfold when, bind_of, M_bind, bind, ret.
  rewrite (params_setitem_run _ _ _ _ _ Hat), (params_getitem_run _ _ _ _ Hat').
  rewrite lookup_insert_eq. by destruct validation_frame.
Qed.

(** X6. A frame passed to [fit] for validation is the one sent to the
    server, whatever validation frame the builder has stored: its key takes
    the place of the stored value. *)
Theorem validation_passed_to_fit_wins (srv : Server) (validation_frame : pyval)
    (s s' : state) (u : unit) (r : nat) (d : pydict) :
  _set_validation_frame srv validation_frame s = (Ok u, s') ->
  params_at s r d -> truthy validation_frame = true ->
  exists fr key,
    validation_frame = VFrame fr /\
    srv_send_frame srv (trace s) fr = Some key /\
    params_at s' r (<["validation_frame" := VStr key]> d) /\
    trace s' = trace s ++ [EvSendFrame fr].
Proof.
  intros H Hat Hv. pose proof (_set_validation_frame_Ok _ _ _ _ _ _ _ H Hat) as Hok.
  unfold validation_choice in Hok. rewrite Hv in Hok.
  destruct Hok as (fr & key & -> & Hkey & Hp & _ & _ & Ht). eauto 10.
Qed.

(** ** [predict], again *)

Lemma fst_zip_take {A B} (l : list A) (k : list B) :
  (zip l k).*1 = take (length k) l.
Proof.
  revert k. induction l as [|a l IH]; intros [|b k]; simpl; try done.
  by rewrite IH.
Qed.

(** X7. [predict] on a builder that has never been fitted sends the test
    data to the server and then raises a TypeError: the frame it made there
    is not removed. *)
Theorem predict_before_fit_leaves_the_test_frame (srv : Server) (fr : H2OFrame)
    (key : string) (s : state) :
  _model_key s = None -> truthy (VFrame fr) = true ->
  srv_send_frame srv (trace s) fr = Some key ->
  predict srv (VFrame fr) s =
    (Raise TypeError, set_trace (trace s ++ [EvSendFrame fr]) s).
Proof.
  intros Hmk Hfr Hkey. unfold predict. rewrite Hfr. cbn [negb].
  unfold send_frame, call, bind_of, M_bind, bind, get, put, ret, raise.
  rewrite Hkey. cbn [_model_key set_trace]. by rewrite Hmk.
Qed.

(** X8. A successful [predict] posts to the address made of the model key
    and of the key it got for the test data, looks up the frame the server
    names in its answer, and returns the frame whose vecs pair the labels of
    that frame's columns with its vec keys. *)
Theorem predict_returns_the_prediction_frame (srv : Server) (test_data : pyval)
    (s s' : state) (out : H2OFrame) :
  predict srv test_data s = (Ok out, s') ->
  exists (fr : H2OFrame) (test_data_key model_key prediction_frame_key : string)
         (meta : frame_meta),
    let url := "Predictions/models/" +:+ model_key +:+ "/frames/" +:+ test_data_key in
    test_data = VFrame fr /\ _model_key s = Some model_key /\
    srv_send_frame srv (trace s) fr = Some test_data_key /\
    srv_predict srv (trace s ++ [EvSendFrame fr]) url = Some prediction_frame_key /\
    srv_frame srv (trace s ++ [EvSendFrame fr; EvPost url ∅]) prediction_frame_key
      = Some meta /\
    out = mkFrame (zip (fm_labels meta) (fm_veckeys meta)) (fm_rows meta) /\
    names out = take (length (fm_veckeys meta)) (fm_labels meta).
Proof.
  unfold predict. intros H.
  destruct (negb (truthy test_data)); [discriminate|].
  inv_bind H key s1 H1.
  destruct test_data as [| | | | | |fr|]; try discriminate.
  unfold send_frame in H1. apply call_Ok in H1 as [Hkey ->].
  inv_bind H s0 s1 H1. apply get_Ok in H1 as [-> ->].
  inv_bind H model_key s1 H1. cbn [_model_key set_trace] in H1.
  destruct (_model_key s) as [mk|] eqn:Hmk; [|discriminate].
  apply ret_Ok in H1 as [-> ->].
  inv_bind H pkey s1 H1. apply call_Ok in H1 as [Hpkey ->].
  inv_bind H meta s1 H1. apply call_Ok in H1 as [Hmeta ->].
  inv_bind H stale s1 H1.
  apply params_getitem_Ok_at in H1 as (-> & _).
  inv_bind H u s1 H1. apply ret_Ok in H as [-> _].
  cbn [trace set_trace] in Hpkey, Hmeta. rewrite <- app_assoc in Hmeta.
  exists fr, key, mk, pkey, meta. cbn zeta.
  repeat split; try done.
  unfold names. cbn [fr_vecs]. apply fst_zip_take.
Qed.

(** ** Dispatch, again *)

Lemma format_from_no_braces (used : bool) (arg t : string) :
  no_braces t = true -> format_from used arg t = Formatted t.
Proof.
  induction t as [|c t IH]; [done|]. cbn [no_braces format_from].
  destruct (Ascii.eqb c "{"); [discriminate|].
  destruct (Ascii.eqb c "}"); [discriminate|]. cbn [negb andb].
  intros Ht. by rewrite IH.
Qed.

(** X11. A builder whose model type has been filled in with a category it
    does not know rejects every later model, whatever category the server
    reports for it, and stays as it is. *)
Theorem unknown_model_type_is_final (srv : Server) (destination_key : string)
    (s : state) (model : model_json) :
  srv_model srv (trace s) destination_key = Some model ->
  wrapper_of (_model_type s) = None -> no_braces (_model_type s) = true ->
  exists s',
    _set_fitted_model_and_model_type srv destination_key s =
      (Raise (H2OUnknownModelError (_model_type s)), s') /\
    _model_type s' = _model_type s /\ _fitted_model s' = _fitted_model s.
Proof.
  intros Hmodel Hw Hnb. eexists.
  unfold _set_fitted_model_and_model_type, call, bind_of, M_bind, bind, modify,
    get, put. cbn [trace set_model_key]. rewrite Hmodel.
  cbn [ret raise _model_type set_trace set_model_key].
  unfold format. rewrite (format_from_no_braces _ _ _ Hnb).
  cbn [ret raise _model_type set_model_type]. rewrite Hw.
  split; [reflexivity|]. split; reflexivity.
Qed.

(** ** What a successful [fit] leaves on the builder *)

Lemma dispatch_Ok (srv : Server) (destination_key : string) (s s' : state) (u : unit) :
  _set_fitted_model_and_model_type srv destination_key s = (Ok u, s') ->
  exists (model : model_json) (w : wrapper),
    srv_model srv (trace s) destination_key = Some model /\
    wrapper_of (_model_type s') = Some w /\
    _model_key s' = Some destination_key /\
    _fitted_model s' =
      Some (mkFitted w (mj_output model) (_algo s) (Some destination_key)) /\
    _algo s' = _algo s.
Proof.
  unfold _set_fitted_model_and_model_type. intros H.
  inv_bind H u0 s1 H1. apply modify_Ok in H1 as ->.
  inv_bind H model s1 H1. apply call_Ok in H1 as [Hmodel ->].
  inv_bind H s0 s1 H1. apply get_Ok in H1 as [-> ->].
  inv_bind H model_type s1 H1.
  assert (s1 = set_trace (trace (set_model_key (Some destination_key) s) ++
                          [EvGet ("Models/" +:+ destination_key)])
                         (set_model_key (Some destination_key) s)) as ->.
  { destruct (format _ _); try discriminate. by apply ret_Ok in H1 as [_ ->]. }
  clear H1. inv_bind H u1 s1 H1. apply modify_Ok in H1 as ->.
  inv_bind H s0 s1 H1. apply get_Ok in H1 as [-> ->].
  cbn [_model_type set_model_type] in H.
  destruct (wrapper_of model_type) as [w|] eqn:Hw; [|discriminate].
  inv_bind H u2 s1 H1. apply modify_Ok in H1 as ->.
  apply modify_Ok in H as ->.
  exists model, w. by repeat split.
Qed.

Lemma params_contains_Ok_at (k : string) (s s' : state) (b : bool) :
  params_contains k s = (Ok b, s') -> s' = s.
Proof.
  unfold params_contains. intros ([r d] & s1 & H1 & H)%bind_Ok.
  apply the_parameters_Ok in H1 as [-> _]. by apply ret_Ok in H as [_ ->].
Qed.

(** X16. After a successful [fit] the builder holds the model the server
    built: the wrapper for the builder's model type, made from the output
    the server gave for the key the build answered, stamped with that key,
    which is the builder's model key too. *)
Theorem fit_sets_the_fitted_model (srv : Server) (x y validation_frame : pyval)
    (s s' : state) (u : unit) :
  fit srv x y validation_frame s = (Ok u, s') ->
  exists (dest : string) (model : model_json) (w : wrapper)
         (t t' : list event) (body : pydict),
    srv_build srv t (_algo s) body = Some dest /\
    srv_model srv t' dest = Some model /\
    wrapper_of (_model_type s') = Some w /\
    _model_key s' = Some dest /\
    _fitted_model s' = Some (mkFitted w (mj_output model) (_algo s) (Some dest)).
Proof.
  intros H.
  destruct (fit_after_update srv x y validation_frame s) as (snapshot & F & _).
  cbn zeta in F. rewrite H in F. destruct F as (_ & Halgo & _).
  cbn [snd _algo set_parameters set_heap] in Halgo.
  unfold fit in H.
  inv_bind H saved s0 H0. inv_bind H xy s1 H1. destruct xy as [x1 y1].
  inv_bind H dataset s2 H2. inv_bind H xy s3 H3. destruct xy as [x2 y2].
  inv_bind H u1 s4 H4. inv_bind H u2 s5 H5. inv_bind H u3 s6 H6.
  inv_bind H u4 s7 H7. inv_bind H body s8 H8.
  inv_bind H sx s9 H9. apply get_Ok in H9 as [-> ->].
  inv_bind H dest s9 H10. apply call_Ok in H10 as [Hdest ->].
  inv_bind H u5 s9 H11.
  apply dispatch_Ok in H11 as (model & w & Hmodel & Hw & Hkey & Hfitted & Hg).
  cbn [_algo trace set_trace] in Hmodel, Hfitted, Hg.
  inv_bind H tk s10 H12. apply params_getitem_Ok_at in H12 as (-> & _).
  inv_bind H u6 s10 H13. unfold h2o_remove in H13. apply call_Ok in H13 as [_ ->].
  inv_bind H has s10 H14. apply params_contains_Ok_at in H14 as ->.
  inv_bind H u7 s10 H15.
  assert (Hsame : _model_type s10 = _model_type s9 /\ _model_key s10 = _model_key s9 /\
                  _fitted_model s10 = _fitted_model s9 /\ _algo s10 = _algo s9).
  { destruct has.
    - inv_bind H15 vk s11 H16. apply params_getitem_Ok_at in H16 as (-> & _).
      destruct (negb (is_None vk)); cbn [when] in H15.
      + unfold h2o_remove in H15. by apply call_Ok in H15 as [_ ->].
      + by apply ret_Ok in H15 as [_ ->].
    - by apply ret_Ok in H15 as [_ ->]. }
  destruct Hsame as (Ht & Hk & Hf & Hg').
  apply modify_Ok in H as ->.
  cbn [_model_type _model_key _fitted_model _algo set_parameters] in *.
  exists dest, model, w. eexists _, _, body.
  split; [rewrite <- Halgo, Hg', Hg; exact Hdest|].
  split; [exact Hmodel|]. split; [by rewrite Ht|]. split; [by rewrite Hk|].
  by rewrite Hf, Hfitted, <- Halgo, Hg', Hg.
Qed.

(** X17. The builder's model key is set before the model is looked at:
    after [_set_fitted_model_and_model_type], whether it returned or raised,
    the model key is the destination key. *)
Theorem dispatch_sets_the_model_key_first (srv : Server) (destination_key : string)
    (s : state) :
  _model_key (_set_fitted_model_and_model_type srv destination_key s).2
    = Some destination_key.
Proof.
  unfold _set_fitted_model_and_model_type, call, bind_of, M_bind, bind, modify,
    get, put. cbn [trace set_model_key].
  destruct (srv_model srv (trace s) destination_key) as [model|]; [|done].
  cbn [ret raise _model_type set_trace set_model_key].
  destruct (format (_model_type s) (mj_model_category model)); try done.
  cbn [ret _model_type set_model_type]. by destruct (wrapper_of s0).
Qed.

(** ** Integer targets *)

(** X18. A target given as an integer other than 0 counts from the start of
    the column names or, when negative, from their end; outside the range of
    the columns it raises an IndexError. *)
Theorem target_index_counts_from_either_end (c : string) (rest : list pyval)
    (i : Z) (dataset : H2OFrame) :
  i <> 0 ->
  let n := Z.of_nat (length (names dataset)) in
  let x := VList (VStr c :: rest) in
  (forall name, - n <= i < n -> names dataset !! Z.to_nat (i `mod` n) = Some name ->
     _indexed_columns_to_named_columns x (VInt i) dataset = Ok (x, VStr name)) /\
  (i < - n \/ n <= i ->
     _indexed_columns_to_named_columns x (VInt i) dataset = Raise IndexError).
Proof.
  intros Hi n x.
  assert (Hrun : _indexed_columns_to_named_columns x (VInt i) dataset =
                 match list_getitem (names dataset) i with
                 | Ok name => Ok (x, VStr name)
                 | Raise e => Raise e
                 end).
  { unfold _indexed_columns_to_named_columns, x.
    cbn [getitem0 bind_of result_bind isinstance_int truthy list_subscript].
    rewrite (proj2 (Z.eqb_neq i 0) Hi). cbn [negb fmap result_fmap].
    by destruct (list_getitem (names dataset) i). }
  rewrite Hrun. unfold list_getitem. fold n. split.
  - intros name Hrange Hname.
    assert (Hj : (if i <? 0 then i + n else i) = i `mod` n).
    { destruct (Z.ltb_spec i 0).
      - rewrite <- (Z.mod_small (i + n) n) by lia.
        by rewrite <- (Z_mod_plus_full i 1 n), Z.mul_1_l.
      - by rewrite Z.mod_small by lia. }
    rewrite Hj.
    assert (0 <= i `mod` n < n) by (apply Z.mod_pos_bound; lia).
    rewrite (proj2 (Z.leb_le _ _)), (proj2 (Z.ltb_lt _ _)) by lia.
    cbn [andb]. by rewrite Hname.
  - intros Hout. destruct (Z.ltb_spec i 0).
    + rewrite (proj2 (Z.leb_gt _ _)) by lia. done.
    + destruct Hout; [lia|]. rewrite (proj2 (Z.ltb_ge _ _)) by lia.
      by rewrite andb_false_r.
Qed.

(** ** The further theorems at work on the examples *)

Lemma string_features_hide_prefix_columns_witness : "a" ∉ ["c"].
Proof.
  apply (string_features_hide_prefix_columns ["a"; "b"; "ab"; "c"] "a" "b" VNone).
  reflexivity.
Defined.

Lemma resolution_is_idempotent_witness :
  _indexed_columns_to_named_columns (VList [VStr "a"; VStr "c"]) (VStr "d")
    example_frame
  = Ok (VList [VStr "a"; VStr "c"], VStr "d").
Proof.
  apply (resolution_is_idempotent (VList [VInt 0; VInt 2]) (VInt 3)).
  reflexivity.
Defined.

Lemma fit_failure_removes_nothing_witness :
  exists evs, trace example_unknown = trace example_builder ++ evs /\
              forallb no_remove evs = true.
Proof.
  apply (fit_failure_removes_nothing example_server_unknown
           (VList [VInt 0; VInt 2]) (VStr "d") VNone example_builder
           example_unknown (H2OUnknownModelError "H2OAutoEncoderModel")).
  - vm_compute. reflexivity.
  - discriminate.
Defined.

Lemma fit_needs_a_training_frame_witness :
  exists s',
    fit example_server (VList [VStr "a"]) (VStr "d") VNone example_frameless
      = (Raise H2OMissingFrameError, s') /\
    trace s' = trace example_frameless.
Proof.
  apply (fit_needs_a_training_frame example_server (VList [VStr "a"]) (VStr "d")
           VNone example_frameless VNone); reflexivity.
Defined.

Lemma features_and_target_fall_back_witness :
  truthy (VList [VStr "a"; VStr "c"]) = true /\
  trace example_stored = trace example_stored /\
  (truthy VNone = true -> VList [VStr "a"; VStr "c"] = VNone) /\
  (truthy VNone = true -> VStr "d" = VNone) /\
  (truthy VNone = false ->
     exists r d, params_at example_stored r d /\
                 d !! "x" = Some (VList [VStr "a"; VStr "c"])) /\
  (truthy VNone = false ->
     exists r d, params_at example_stored r d /\
                 VStr "d" = default VNone (d !! "y")).
Proof.
  apply (features_and_target_fall_back VNone VNone (VList [VStr "a"; VStr "c"])
           (VStr "d") example_stored example_stored).
  vm_compute. reflexivity.
Defined.

Lemma validation_must_be_a_frame_witness :
  exists d s',
    params_at example_stored 0 d /\
    _set_validation_frame example_server (VStr "holdout.csv") example_stored =
      (Raise (ValueError (ValidationNotAFrame true)), s') /\
    trace s' = trace example_stored /\
    params_at s' 0 (<["validation_frame" := VStr "holdout.csv"]> d).
Proof.
  exists (default ∅ (heap example_stored !! 0%nat)).
  assert (Hat : params_at example_stored 0 (default ∅ (heap example_stored !! 0%nat)))
    by (split; vm_compute; reflexivity).
  destruct (validation_must_be_a_frame example_server (VStr "holdout.csv")
              example_stored 0 _ Hat eq_refl eq_refl) as (s' & H).
  exists s'. split; [exact Hat|exact H].
Defined.

Lemma validation_passed_to_fit_wins_witness :
  exists d fr key,
    VFrame example_validation = VFrame fr /\
    srv_send_frame example_server (trace example_stored) fr = Some key /\
    params_at (_set_validation_frame example_server (VFrame example_validation)
                 example_stored).2 0
              (<["validation_frame" := VStr key]> d) /\
    trace (_set_validation_frame example_server (VFrame example_validation)
             example_stored).2
      = trace example_stored ++ [EvSendFrame fr].
Proof.
  exists (default ∅ (heap example_stored !! 0%nat)).
  apply (validation_passed_to_fit_wins example_server (VFrame example_validation)
           example_stored _ tt 0).
  - vm_compute. reflexivity.
  - split; vm_compute; reflexivity.
  - reflexivity.
Defined.

Lemma predict_before_fit_leaves_the_test_frame_witness :
  predict example_server (VFrame example_validation) example_builder =
    (Raise TypeError,
     set_trace (trace example_builder ++ [EvSendFrame example_validation])
               example_builder).
Proof.
  apply (predict_before_fit_leaves_the_test_frame example_server example_validation
           "tmp_0" example_builder); reflexivity.
Defined.

Lemma predict_returns_the_prediction_frame_witness :
  exists (fr : H2OFrame) (test_data_key model_key prediction_frame_key : string)
         (meta : frame_meta),
    let url := "Predictions/models/" +:+ model_key +:+ "/frames/" +:+ test_data_key in
    VFrame example_validation = VFrame fr /\
    _model_key example_fitted = Some model_key /\
    srv_send_frame example_server (trace example_fitted) fr = Some test_data_key /\
    srv_predict example_server (trace example_fitted ++ [EvSendFrame fr]) url
      = Some prediction_frame_key /\
    srv_frame example_server (trace example_fitted ++ [EvSendFrame fr; EvPost url ∅])
      prediction_frame_key = Some meta /\
    mkFrame [("predict", "vk_p")] 10
      = mkFrame (zip (fm_labels meta) (fm_veckeys meta)) (fm_rows meta) /\
    names (mkFrame [("predict", "vk_p")] 10)
      = take (length (fm_veckeys meta)) (fm_labels meta).
Proof.
  apply (predict_returns_the_prediction_frame example_server
           (VFrame example_validation) example_fitted example_predicted).
  vm_compute. reflexivity.
Defined.

Lemma first_dispatch_follows_category_witness :
  exists s',
    _set_fitted_model_and_model_type example_server "model_0" example_builder
      = (Ok tt, s') /\
    _model_type s' = "H2OBinomialModel" /\
    _fitted_model s' = Some (mkFitted H2OBinomialModel 7 "gbm" (Some "model_0")).
Proof.
  exact (first_dispatch_follows_category example_server "model_0" example_builder
           (mkModelJson "Binomial" 7) eq_refl eq_refl).
Defined.


Lemma unknown_model_type_is_final_witness :
  srv_model example_server (trace example_unknown) "model_0"
    = Some (mkModelJson "Binomial" 7) /\
  exists s',
    _set_fitted_model_and_model_type example_server "model_0" example_unknown =
      (Raise (H2OUnknownModelError "H2OAutoEncoderModel"), s') /\
    _model_type s' = "H2OAutoEncoderModel" /\
    _fitted_model s' = None.
Proof.
  split; [reflexivity|].
  apply (unknown_model_type_is_final example_server "model_0" example_unknown
           (mkModelJson "Binomial" 7)); vm_compute; reflexivity.
Defined.

Lemma fit_sets_the_fitted_model_witness :
  exists (dest : string) (model : model_json) (w : wrapper)
         (t t' : list event) (body : pydict),
    srv_build example_server t "gbm" body = Some dest /\
    srv_model example_server t' dest = Some model /\
    wrapper_of (_model_type example_fitted) = Some w /\
    _model_key example_fitted = Some dest /\
    _fitted_model example_fitted
      = Some (mkFitted w (mj_output model) "gbm" (Some dest)).
Proof.
  apply (fit_sets_the_fitted_model example_server (VList [VInt 0; VInt 2])
           (VStr "d") VNone example_builder example_fitted tt).
  vm_compute. reflexivity.
Defined.

Lemma target_index_counts_from_either_end_witness :
  _indexed_columns_to_named_columns (VList [VStr "a"]) (VInt (-1)) example_frame
    = Ok (VList [VStr "a"], VStr "d").
Proof.
  apply (proj1 (target_index_counts_from_either_end "a" [] (-1) example_frame
                  ltac:(discriminate)) "d").
  - vm_compute. split; [discriminate|reflexivity].
  - reflexivity.
Defined.
